(** * Target RedCircle API client and product controllers

    A shallow embedding of [src/services/target/api.ts] (the caching API
    client and its error classifier) and of the product controllers
    ([getProductByTcin], [getProductByUpc], [searchProductsHandler]),
    followed by the properties of the specification that were checked
    against them.

    Conventions of the embedding:
    - a JavaScript string is a [string]; one [ascii] stands for one code
      unit in the Latin-1 range;
    - a JavaScript number that the code uses as an integer (HTTP status, page
      number, timeout, clock) is a [Z]; this is exact below 2^53;
    - [undefined] is [None];
    - console logging (development mode only) is not an observable of any
      property below and is left out;
    - an [async] function is a state transformer that also reports the
      effects it performed, in order. *)

From Stdlib Require Import String Ascii ZArith List Bool Lia.
From stdpp Require Import base option strings gmap.
Import ListNotations.

Local Open Scope string_scope.
Local Open Scope Z_scope.
Local Open Scope list_scope.
Local Set Warnings "-register-all".

(* ====================================================================== *)
(** ** Strings: character classes, [trim], [parseInt], number printing    *)
(* ====================================================================== *)

Module Js.

(** [\d] of a regular expression without the unicode flag: [0-9]. *)
Definition isDigit (c : ascii) : bool :=
  let n := nat_of_ascii c in (48 <=? n)%nat && (n <=? 57)%nat.

(** White space and line terminators in the Latin-1 range, as stripped by
    [String.prototype.trim] and skipped by [parseInt]: TAB, LF, VT, FF, CR,
    SPACE and NBSP. *)
Definition isWhiteSpace (c : ascii) : bool :=
  let n := nat_of_ascii c in
  ((9 <=? n)%nat && (n <=? 13)%nat) || (n =? 32)%nat || (n =? 160)%nat.

Fixpoint allChars (p : ascii -> bool) (s : string) : bool :=
  match s with
  | EmptyString => true
  | String c s' => p c && allChars p s'
  end.

Fixpoint trimStart (s : string) : string :=
  match s with
  | EmptyString => EmptyString
  | String c s' => if isWhiteSpace c then trimStart s' else s
  end.

Fixpoint trimEnd (s : string) : string :=
  match s with
  | EmptyString => EmptyString
  | String c s' =>
      match trimEnd s' with
      | EmptyString => if isWhiteSpace c then EmptyString else String c EmptyString
      | rest => String c rest
      end
  end.

(** [s.trim()] *)
Definition trim (s : string) : string := trimEnd (trimStart s).

Definition digitValue (c : ascii) : Z := Z.of_nat (nat_of_ascii c) - 48.

(** Longest prefix of decimal digits, read as a number; [None] when the
    prefix is empty. The accumulator carries the digits read so far. *)
Fixpoint readDigits (acc : option Z) (s : string) : option Z :=
  match s with
  | String c s' =>
      if isDigit c
      then readDigits (Some (10 * default 0 acc + digitValue c)) s'
      else acc
  | EmptyString => acc
  end.

(** [parseInt(s, 10)]; [None] is [NaN]. Leading white space is skipped, one
    sign is accepted, then the longest run of digits is read and whatever
    follows is ignored. *)
Definition parseInt10 (s : string) : option Z :=
  match trimStart s with
  | String "-" s' => Z.opp <$> readDigits None s'
  | String "+" s' => readDigits None s'
  | s' => readDigits None s'
  end.

Definition digitChar (d : Z) : ascii := ascii_of_nat (Z.to_nat (48 + d)).

Fixpoint printDigits (fuel : nat) (n : Z) (acc : string) : string :=
  match fuel with
  | O => acc
  | S fuel' =>
      let acc' := String (digitChar (n mod 10)) acc in
      if n <? 10 then acc' else printDigits fuel' (n / 10) acc'
  end.

(** [n.toString()] for an integer [n]: its decimal digits, with a minus
    sign when negative. *)
Definition numberToString (n : Z) : string :=
  let digits := printDigits (S (Z.to_nat (Z.log2 (Z.abs n)))) (Z.abs n) "" in
  if n <? 0 then String "-" digits else digits.

(** Truthiness of a string: every string but the empty one. *)
Definition truthyString (s : string) : bool :=
  match s with EmptyString => false | _ => true end.

(** [o || d] for an optional string. *)
Definition orString (o : option string) (d : string) : string :=
  match o with
  | Some s => if truthyString s then s else d
  | None => d
  end.

(** [o || d] for an optional number: [undefined] and [0] give [d]. *)
Definition orNumber (o : option Z) (d : Z) : Z :=
  match o with
  | Some n => if n =? 0 then d else n
  | None => d
  end.

End Js.

(* ====================================================================== *)
(** ** JSON values                                                         *)
(* ====================================================================== *)

Inductive Json : Type :=
| JNull
| JBool (b : bool)
| JNum (n : Z)
| JStr (s : string)
| JArr (items : list Json)
| JObj (fields : list (string * Json)).

(** Property read [o.name] on an object given by its fields. *)
Fixpoint getField (name : string) (fields : list (string * Json)) : option Json :=
  match fields with
  | [] => None
  | (k, v) :: rest => if String.eqb k name then Some v else getField name rest
  end.

(** Object literal with optional members: a member whose value is
    [undefined] does not appear in the serialised body. *)
Definition member (name : string) (v : option Json) : list (string * Json) :=
  match v with
  | Some j => [(name, j)]
  | None => []
  end.

(* ====================================================================== *)
(** ** Configuration                                                       *)
(* ====================================================================== *)

(** The variables the module reads from [process.env]. *)
Record Env : Type := {
  TARGET_API_KEY : option string;
  TARGET_API_BASE_URL : option string;
  NODE_ENV : option string
}.

Definition API_KEY (env : Env) : string := Js.orString (TARGET_API_KEY env) "".
Definition BASE_URL (env : Env) : string :=
  Js.orString (TARGET_API_BASE_URL env) "https://api.redcircleapi.com/request".
Definition DEFAULT_TIMEOUT : Z := 10000.

Definition isDevelopment (env : Env) : bool :=
  match NODE_ENV env with
  | Some v => String.eqb v "development"
  | None => false
  end.

(* ====================================================================== *)
(** ** Data exchanged with the upstream service                            *)
(* ====================================================================== *)

(** Modelled from the spec: the response types of [types/index.ts]
    ([TargetProductResponse], [TargetProductFullResponse],
    [TargetSearchResponse], [TargetStoreStockResponse]) are not among the
    sources. They are JSON objects whose members are all optional; one
    record carries the members the client and the controllers read, so that
    the unchecked casts of [getCachedValue<T>] are the identity, as they are
    at run time. *)
Record ApiResponse : Type := {
  product : option Json;
  request_info : option Json;
  request_metadata : option Json;
  location_info : option Json;
  search_results : option (list Json);
  pagination : option Json;
  facets : option Json;
  categories : option Json;
  related_queries : option Json;
  store_stock_results : option Json
}.

(** [ApiRequestOptions], extended with the two members [searchProducts]
    accepts. *)
Record ApiRequestOptions : Type := {
  skipCache : option bool;
  timeout : option Z;
  page : option Z;
  sortBy : option string
}.

(** [options?.skipCache], as a condition. *)
Definition skipCacheOf (options : option ApiRequestOptions) : bool :=
  match options with
  | Some o => default false (skipCache o)
  | None => false
  end.

(** [options?.timeout || DEFAULT_TIMEOUT] *)
Definition timeoutOf (options : option ApiRequestOptions) : Z :=
  Js.orNumber (options ≫= timeout) DEFAULT_TIMEOUT.

(** What axios keeps of an HTTP response in an [AxiosError]. Header names
    are lower case. *)
Record AxiosResponse : Type := {
  resp_status : Z;
  resp_data : option Json;
  resp_headers : list (string * string)
}.

Record AxiosError : Type := {
  axios_message : string;
  axios_response : option AxiosResponse
}.

(** What [await axiosInstance.get] can throw: an axios error (a response
    outside 2xx, or no response at all), or anything else, kept as the
    string [String(error)] gives. *)
Inductive Failure : Type :=
| AxiosFailure (e : AxiosError)
| OtherFailure (description : string).

Definition Params : Type := list (string * string).

(** The upstream service: what one GET with these query parameters and this
    timeout is answered with, and after how long. *)
Record Reply : Type := {
  elapsed : Z;
  outcome : ApiResponse + Failure
}.

Definition Upstream : Type := Params -> Z -> Reply.

(* ====================================================================== *)
(** ** Typed errors                                                        *)
(* ====================================================================== *)

(** Second argument of the [ApiError] constructor: one of the names of the
    taxonomy, or a number where the code passes the HTTP status. *)
Inductive ErrorCode : Type :=
| CodeName (name : string)
| CodeStatus (status : Z).

(** Third argument of the [ApiError] constructor. *)
Record ErrorDetails : Type := {
  context : option string;
  status : option Z;
  retryAfter : option string;
  originalError : option string
}.

(** Modelled from the spec: the class [ApiError] of [types/index.ts] is not
    among the sources; its constructor is called with a message, a code and
    a structured context, which the record keeps as given. *)
Record ApiError : Type := {
  err_message : string;
  err_code : ErrorCode;
  err_details : ErrorDetails
}.

(** [d.error?.code] behind the guard [typeof d === 'object' && d !== null]. *)
Definition errorCodeOf (data : option Json) : option Json :=
  match data with
  | Some (JObj fields) =>
      match getField "error" fields with
      | Some (JObj errorFields) => getField "code" errorFields
      | _ => None
      end
  | _ => None
  end.

(** [errorCode === name] *)
Definition isCode (errorCode : option Json) (name : string) : bool :=
  match errorCode with
  | Some (JStr s) => String.eqb s name
  | _ => false
  end.

Definition statusIs (st : option Z) (n : Z) : bool :=
  match st with
  | Some s => s =? n
  | None => false
  end.

Definition lookupHeader (name : string) (headers : list (string * string)) : option string :=
  snd <$> List.find (fun h => String.eqb (fst h) name) headers.

(** [handleApiError(error, context)] *)
Definition handleApiError (error : Failure) (ctx : option string) : ApiError :=
  match error with
  | AxiosFailure axiosError =>
      let st := resp_status <$> axios_response axiosError in
      let data := axios_response axiosError ≫= resp_data in
      let errorCode := errorCodeOf data in
      if statusIs st 404 || isCode errorCode "PRODUCT_NOT_FOUND" then
        {| err_message :=
             "Product not found" +:+
             (if Js.truthyString (default "" ctx) then ": " +:+ default "" ctx else "");
           err_code := CodeName "PRODUCT_NOT_FOUND";
           err_details := {| context := ctx; status := st;
                             retryAfter := None; originalError := None |} |}
      else if statusIs st 429 || isCode errorCode "RATE_LIMIT_EXCEEDED" then
        {| err_message := "Rate limit exceeded";
           err_code := CodeName "RATE_LIMIT_EXCEEDED";
           err_details := {| context := ctx; status := None;
                             retryAfter :=
                               axios_response axiosError ≫=
                                 (fun r => lookupHeader "retry-after" (resp_headers r));
                             originalError := None |} |}
      else if statusIs st 401 || statusIs st 403 then
        {| err_message := "Invalid API key or unauthorized";
           err_code := CodeName "UNAUTHORIZED";
           err_details := {| context := ctx; status := st;
                             retryAfter := None; originalError := None |} |}
      else
        {| err_message := axios_message axiosError;
           err_code :=
             match st with
             | Some s => if s =? 0 then CodeName "NETWORK_ERROR" else CodeStatus s
             | None => CodeName "NETWORK_ERROR"
             end;
           err_details := {| context := ctx; status := None; retryAfter := None;
                             originalError := Some (axios_message axiosError) |} |}
  | OtherFailure description =>
      {| err_message := "Unknown error occurred";
         err_code := CodeName "UNKNOWN_ERROR";
         err_details := {| context := ctx; status := None; retryAfter := None;
                           originalError := Some description |} |}
  end.

(* ====================================================================== *)
(** ** The TTL cache                                                       *)
(* ====================================================================== *)

Record CacheEntry : Type := {
  entry_value : ApiResponse;
  entry_stored : Z;
  entry_ttl : Z
}.

(** Modelled from the spec: [utils/cache] is not among the sources. A cache
    is a key-value store with a default time to live; an entry is absent
    once its age exceeds its time to live, which is checked when it is
    read; nothing sweeps or evicts entries, and there is no capacity
    bound. *)
Record Cache : Type := {
  cache_ttl : Z;
  cache_entries : gmap string CacheEntry
}.

Definition entryLive (now : Z) (e : CacheEntry) : bool :=
  now - entry_stored e <=? entry_ttl e.

(** Modelled from the spec: [get(key) -> value or absent]. *)
Definition getCachedValue (cache : Cache) (key : string) (now : Z) : option ApiResponse :=
  match cache_entries cache !! key with
  | Some e => if entryLive now e then Some (entry_value e) else None
  | None => None
  end.

(** Modelled from the spec: [set(key, value, ttl)]; the client never passes
    a time to live, so the cache's default applies. *)
Definition setCachedValue (cache : Cache) (key : string) (value : ApiResponse)
    (ttl : option Z) (now : Z) : Cache :=
  {| cache_ttl := cache_ttl cache;
     cache_entries :=
       <[key := {| entry_value := value; entry_stored := now;
                   entry_ttl := default (cache_ttl cache) ttl |}]>
         (cache_entries cache) |}.

(** Modelled from the spec: the two key generators of [utils/cache] are not
    among the sources; a cache key is a deterministic function of the
    logical inputs, and nothing else is assumed of them. *)
Class CacheKeys : Type := {
  generateProductCacheKey : string -> string;
  generateProductStockCacheKey : string -> string -> string
}.

(** The two module-level caches. *)
Inductive CacheName : Type := ProductCache | StockCache.

(** The mutable state of the process: the clock and the two caches. *)
Record State : Type := {
  clock : Z;
  productCache : Cache;
  stockCache : Cache
}.

Definition cacheOf (c : CacheName) (st : State) : Cache :=
  match c with
  | ProductCache => productCache st
  | StockCache => stockCache st
  end.

Definition withCache (c : CacheName) (cache : Cache) (st : State) : State :=
  match c with
  | ProductCache => {| clock := clock st; productCache := cache; stockCache := stockCache st |}
  | StockCache => {| clock := clock st; productCache := productCache st; stockCache := cache |}
  end.

Definition advance (dt : Z) (st : State) : State :=
  {| clock := clock st + dt; productCache := productCache st; stockCache := stockCache st |}.

(* ====================================================================== *)
(** ** Effects                                                             *)
(* ====================================================================== *)

(** What a call does to the outside, in order: cache reads and writes with
    their keys, and upstream requests with their query parameters. *)
Inductive Event : Type :=
| CacheRead (c : CacheName) (key : string)
| CacheWrite (c : CacheName) (key : string) (value : ApiResponse)
| HttpGet (params : Params) (timeout : Z).

(** A computation that returns or throws. *)
Inductive Result (E A : Type) : Type :=
| Returned (a : A)
| Thrown (e : E).
Arguments Returned {E A} a.
Arguments Thrown {E A} e.

(** State passing with an event log and exceptions of type [E]. *)
Definition Eff (E A : Type) : Type := State -> Result E A * State * list Event.

Definition ret {E A} (a : A) : Eff E A := fun st => (Returned a, st, []).

Definition throw {E A} (e : E) : Eff E A := fun st => (Thrown e, st, []).

Definition bind {E A B} (m : Eff E A) (k : A -> Eff E B) : Eff E B :=
  fun st =>
    match m st with
    | (Returned a, st1, ev1) =>
        match k a st1 with
        | (r, st2, ev2) => (r, st2, ev1 ++ ev2)
        end
    | (Thrown e, st1, ev1) => (Thrown e, st1, ev1)
    end.

(** [try { body } catch (error) { handler }] *)
Definition tryCatch {E E' A} (body : Eff E A) (handler : E -> Eff E' A) : Eff E' A :=
  fun st =>
    match body st with
    | (Returned a, st1, ev1) => (Returned a, st1, ev1)
    | (Thrown e, st1, ev1) =>
        match handler e st1 with
        | (r, st2, ev2) => (r, st2, ev1 ++ ev2)
        end
    end.

#[global] Instance Eff_ret {E} : MRet (Eff E) := @ret E.
#[global] Instance Eff_bind {E} : MBind (Eff E) := fun A B k m => bind m k.

Definition cacheGet {E} (c : CacheName) (key : string) : Eff E (option ApiResponse) :=
  fun st => (Returned (getCachedValue (cacheOf c st) key (clock st)), st, [CacheRead c key]).

Definition cacheSet {E} (c : CacheName) (key : string) (value : ApiResponse) : Eff E unit :=
  fun st =>
    (Returned tt,
     withCache c (setCachedValue (cacheOf c st) key value None (clock st)) st,
     [CacheWrite c key value]).

(** [await axiosInstance.get('', { params, timeout })]: the request goes out,
    time passes, and the call returns the response body or throws. *)
Definition httpGet (upstream : Upstream) (params : Params) (tmo : Z) : Eff Failure ApiResponse :=
  fun st =>
    let reply := upstream params tmo in
    (match outcome reply with
     | inl data => Returned data
     | inr failure => Thrown failure
     end,
     advance (elapsed reply) st,
     [HttpGet params tmo]).

(** The common opening of every operation: the cache is consulted unless
    [skipCache] is set; a cached object is always truthy. *)
Definition lookupUnlessSkipped {E} (options : option ApiRequestOptions)
    (c : CacheName) (key : string) : Eff E (option ApiResponse) :=
  if negb (skipCacheOf options) then cacheGet c key else mret None.

(* ====================================================================== *)
(** ** The API client ([services/target/api.ts])                           *)
(* ====================================================================== *)

Module Api.

(** Cache key of a search: the template literal
    [search_${searchTerm}_page${page}_${options?.sortBy || 'default'}]. *)
Definition searchCacheKey (searchTerm : string) (page : Z) (sortBy : option string) : string :=
  "search_" +:+ searchTerm +:+ "_page" +:+ Js.numberToString page +:+ "_" +:+
  Js.orString sortBy "default".

(** Query parameters of a search; [sort_by] is added only for a truthy
    [sortBy]. *)
Definition searchParams (apiKey searchTerm : string) (page : Z) (sortBy : option string) : Params :=
  [("api_key", apiKey); ("type", "search"); ("search_term", searchTerm);
   ("page", Js.numberToString page)] ++
  (if Js.truthyString (default "" sortBy) then [("sort_by", default "" sortBy)] else []).

Section Client.

Context `{keys : CacheKeys} (env : Env) (upstream : Upstream).

(** [checkStoreStock(tcin, zipCode, _storeId, options)] *)
Definition checkStoreStock (tcin zipCode : string) (_storeId : option string)
    (options : option ApiRequestOptions) : Eff ApiError ApiResponse :=
  cached ← lookupUnlessSkipped options StockCache (generateProductStockCacheKey zipCode tcin);
  match cached with
  | Some stock => mret stock
  | None =>
      tryCatch
        (let params :=
           [("api_key", API_KEY env); ("type", "store_stock"); ("tcin", tcin);
            ("store_stock_zipcode", zipCode)] in
         data ← httpGet upstream params (timeoutOf options);
         cacheSet StockCache (generateProductStockCacheKey zipCode tcin) data;;
         mret data)
        (fun error => throw (handleApiError error (Some ("TCIN " +:+ tcin))))
  end.

(** [getProductByTcin(tcin, options)] of the client. *)
Definition getProductByTcin (tcin : string) (options : option ApiRequestOptions)
    : Eff ApiError ApiResponse :=
  cached ← lookupUnlessSkipped options ProductCache (generateProductCacheKey tcin);
  match cached with
  | Some found => mret found
  | None =>
      tryCatch
        (let params := [("api_key", API_KEY env); ("type", "product"); ("tcin", tcin)] in
         data ← httpGet upstream params (timeoutOf options);
         cacheSet ProductCache (generateProductCacheKey tcin) data;;
         mret data)
        (fun error => throw (handleApiError error (Some ("TCIN " +:+ tcin))))
  end.

(** [getFullProductByTcin(tcin, options)] *)
Definition getFullProductByTcin (tcin : string) (options : option ApiRequestOptions)
    : Eff ApiError ApiResponse :=
  cached ← lookupUnlessSkipped options ProductCache ("full_product_" +:+ tcin);
  match cached with
  | Some found => mret found
  | None =>
      tryCatch
        (let params := [("api_key", API_KEY env); ("type", "product"); ("tcin", tcin)] in
         data ← httpGet upstream params (timeoutOf options);
         cacheSet ProductCache ("full_product_" +:+ tcin) data;;
         mret data)
        (fun error => throw (handleApiError error (Some ("TCIN " +:+ tcin))))
  end.

(** [getProductByGtin(gtin, options)] *)
Definition getProductByGtin (gtin : string) (options : option ApiRequestOptions)
    : Eff ApiError ApiResponse :=
  cached ← lookupUnlessSkipped options ProductCache ("product_gtin_" +:+ gtin);
  match cached with
  | Some found => mret found
  | None =>
      tryCatch
        (let params := [("api_key", API_KEY env); ("type", "product"); ("gtin", gtin)] in
         data ← httpGet upstream params (timeoutOf options);
         cacheSet ProductCache ("product_gtin_" +:+ gtin) data;;
         mret data)
        (fun error => throw (handleApiError error (Some ("GTIN " +:+ gtin))))
  end.

(** [searchProducts(searchTerm, options)] *)
Definition searchProducts (searchTerm : string) (options : option ApiRequestOptions)
    : Eff ApiError ApiResponse :=
  let page := Js.orNumber (options ≫= page) 1 in
  cached ← lookupUnlessSkipped options ProductCache
             (searchCacheKey searchTerm page (options ≫= sortBy));
  match cached with
  | Some found => mret found
  | None =>
      tryCatch
        (let params := searchParams (API_KEY env) searchTerm page (options ≫= sortBy) in
         data ← httpGet upstream params (timeoutOf options);
         cacheSet ProductCache (searchCacheKey searchTerm page (options ≫= sortBy)) data;;
         mret data)
        (fun error => throw (handleApiError error (Some ("Search: " +:+ searchTerm))))
  end.

(** *** Bulk variants *)

(** One element of [results]: [{ tcin, stock | product, error }]. *)
Record Item : Type := {
  item_tcin : string;
  item_value : option ApiResponse;
  item_error : option ApiError
}.

(** The per-identifier callback: the single operation inside a [try] whose
    [catch] turns the error into a value. It cannot throw. *)
Definition settle (tcin : string) (op : Eff ApiError ApiResponse) : Eff Empty_set Item :=
  tryCatch
    (value ← op;
     mret {| item_tcin := tcin; item_value := Some value; item_error := None |})
    (fun error =>
       ret {| item_tcin := tcin; item_value := None; item_error := Some error |}).

Definition settled {A} (run : Result Empty_set A * State * list Event) : A :=
  match run with
  | (Returned a, _, _) => a
  | (Thrown e, _, _) => match e with end
  end.

(** A cache write that completes at time [done], applied to the shared state. *)
Definition replay (done : Z) (st : State) (ev : Event) : State :=
  match ev with
  | CacheWrite c key value =>
      withCache c (setCachedValue (cacheOf c st) key value None done) st
  | _ => st
  end.

Definition join {A} (st : State) (run : Result Empty_set A * State * list Event) : State :=
  let '(_, st_i, ev_i) := run in
  let st' := fold_left (replay (clock st_i)) ev_i st in
  {| clock := Z.max (clock st') (clock st_i);
     productCache := productCache st';
     stockCache := stockCache st' |}.

(** [await Promise.all(tasks)] over callbacks started by [Array.map]. Every
    callback runs up to its upstream request before any response arrives, so
    every cache lookup sees the caches as they were when the bulk call
    started; results come back in the order of the input. The cache writes
    are taken to complete in request order: the results do not depend on
    that order. *)
Definition promiseAll {E A} (tasks : list (Eff Empty_set A)) : Eff E (list A) :=
  fun st =>
    let runs := map (fun task => task st) tasks in
    (Returned (map settled runs),
     fold_left join runs st,
     concat (map snd runs)).

Section Bulk.

(** [Number(tcin).toString()], or [None] when [isNaN(Number(tcin))]. The
    conversion of a string to a double and back is kept abstract. *)
Variable numberKey : string -> option string.

(** The body of [results.forEach]: three [set] calls for a truthy value. *)
Definition recordItem (m : gmap string ApiResponse) (item : Item) : gmap string ApiResponse :=
  match item_value item with
  | Some value =>
      let m1 := <[item_tcin item := value]> m in
      let m2 := <[item_tcin item := value]> m1 in
      match numberKey (item_tcin item) with
      | Some canonical => <[canonical := value]> m2
      | None => m2
      end
  | None => m
  end.

(** [checkBulkStoreStock(tcins, zipCode, _storeId, options)] *)
Definition checkBulkStoreStock (tcins : list string) (zipCode : string)
    (_storeId : option string) (options : option ApiRequestOptions)
    : Eff ApiError (gmap string ApiResponse) :=
  let stockPromises :=
    map (fun tcin => settle tcin (checkStoreStock tcin zipCode _storeId options)) tcins in
  results ← promiseAll stockPromises;
  mret (fold_left recordItem results ∅).

(** [getBulkProducts(tcins, options)] *)
Definition getBulkProducts (tcins : list string) (options : option ApiRequestOptions)
    : Eff ApiError (gmap string ApiResponse) :=
  let productPromises :=
    map (fun tcin => settle tcin (getProductByTcin tcin options)) tcins in
  results ← promiseAll productPromises;
  mret (fold_left recordItem results ∅).

End Bulk.

(** [checkApiHealth()] *)
Definition checkApiHealth : Eff Empty_set bool :=
  tryCatch
    (getProductByTcin "78025470"
       (Some {| skipCache := Some true; timeout := None; page := None; sortBy := None |});;
     mret true)
    (fun _ => ret false).

End Client.

(** *** Helper functions *)

(** The first [n] characters of [s] when they are all digits: [\d{n}]. *)
Fixpoint takeDigits (n : nat) (s : string) : option string :=
  match n with
  | O => Some EmptyString
  | S n' =>
      match s with
      | String c s' => if Js.isDigit c then String c <$> takeDigits n' s' else None
      | EmptyString => None
      end
  end.

(** The pattern [\/A-(\d{8})] tried at the start of [s]; the capture. *)
Definition matchTcinHere (s : string) : option string :=
  match s with
  | String "/"%char (String "A"%char (String "-"%char rest)) => takeDigits 8 rest
  | _ => None
  end.

(** [extractTcinFromUrl(url)]: the capture of the leftmost match of
    [/\/A-(\d{8})/] in [url], or [None] for [null]. *)
Fixpoint extractTcinFromUrl (url : string) : option string :=
  match matchTcinHere url with
  | Some tcin => Some tcin
  | None =>
      match url with
      | String _ rest => extractTcinFromUrl rest
      | EmptyString => None
      end
  end.

(** [generateProductUrl(tcin)] *)
Definition generateProductUrl (tcin : string) : string :=
  "https://www.target.com/p/-/A-" +:+ tcin.

(** [/^\d{lo,hi}$/.test(s)] *)
Definition digitsBetween (lo hi : nat) (s : string) : bool :=
  Js.allChars Js.isDigit s && (lo <=? String.length s)%nat && (String.length s <=? hi)%nat.

(** [isValidTcin(tcin)] *)
Definition isValidTcin (tcin : string) : bool := digitsBetween 8 10 tcin.

End Api.

(* ====================================================================== *)
(** ** The product controllers                                              *)
(* ====================================================================== *)

Module Controller.

(** What a handler reads of the Express request. [q] is kept as the parsed
    query gives it, since the handler checks its type at run time; [page]
    and [sort] are taken at the type the handler asserts for them. *)
Record Request : Type := {
  params_tcin : option string;
  params_gtin : option string;
  query_q : option Json;
  query_page : option string;
  query_sort : option string
}.

(** What a handler leaves in the Express response: [res.status(n).json(b)],
    the status being 200 unless set. *)
Record Response : Type := {
  res_status : Z;
  res_body : Json
}.

(** What the [try] block of a handler can throw. Modelled from the spec: the
    class [ValidationError] of [types] is not among the sources; it is built
    from a message, a field name and details, and an [ApiError] is not an
    instance of it. *)
Inductive HandlerError : Type :=
| ValidationError (message field : string) (details : Json)
| ClientError (error : ApiError).

(** [(error as Error).message] *)
Definition messageOf (error : HandlerError) : string :=
  match error with
  | ValidationError message _ _ => message
  | ClientError e => err_message e
  end.

Definition Handler : Type := State -> Response * State * list Event.

(** A call into the API client from a handler: what the client throws
    propagates unchanged. *)
Definition fromClient {A} (op : Eff ApiError A) : Eff HandlerError A :=
  tryCatch op (fun e => throw (ClientError e)).

(** Truthiness of an optional string. *)
Definition truthyParam (p : option string) : bool :=
  Js.truthyString (default "" p).

(** Truthiness of an optional JSON value. *)
Definition truthyJson (v : option Json) : bool :=
  match v with
  | None | Some JNull => false
  | Some (JBool b) => b
  | Some (JNum n) => negb (n =? 0)
  | Some (JStr s) => Js.truthyString s
  | Some (JArr _) | Some (JObj _) => true
  end.

(** [typeof v === 'string'] *)
Definition isString (v : option Json) : bool :=
  match v with
  | Some (JStr _) => true
  | _ => false
  end.

Definition stringOf (v : option Json) : string :=
  match v with
  | Some (JStr s) => s
  | _ => ""
  end.

Definition errorBody (code message : string) (rest : list (string * Json)) : Json :=
  JObj [("error", JObj ([("code", JStr code); ("message", JStr message)] ++ rest))].

Section Handlers.

Context (env : Env) (upstream : Upstream).

(** The [catch] block shared by the three handlers; [fallback] is the
    message used outside development mode. *)
Definition onError (fallback : string) (error : HandlerError) : Response :=
  match error with
  | ValidationError message field details =>
      {| res_status := 400;
         res_body := errorBody "VALIDATION_ERROR" message
                       [("field", JStr field); ("details", details)] |}
  | _ =>
      {| res_status := 500;
         res_body := errorBody "INTERNAL_ERROR"
                       (if isDevelopment env then messageOf error else fallback) [] |}
  end.

(** [try { body } catch (error) { ... }] of a handler. *)
Definition handle (body : Eff HandlerError Response) (fallback : string) : Handler :=
  fun st =>
    match body st with
    | (Returned response, st', events) => (response, st', events)
    | (Thrown error, st', events) => (onError fallback error, st', events)
    end.

(** The successful response of the two product lookups. *)
Definition productBody (data : Json) (productData : ApiResponse) : Json :=
  JObj ([("success", JBool true); ("data", data)] ++
        member "request_info" (request_info productData) ++
        member "request_metadata" (request_metadata productData) ++
        member "location_info" (location_info productData)).

(** [GET /api/products/:tcin] *)
Definition getProductByTcin (req : Request) : Handler :=
  handle
    (let tcin := params_tcin req in
     if negb (truthyParam tcin) || negb (Api.isValidTcin (default "" tcin)) then
       throw (ValidationError "Invalid TCIN format. Must be 8-10 digits." "tcin"
                (JObj (member "tcin" (JStr <$> tcin))))
     else
       productData ← fromClient (Api.getFullProductByTcin env upstream (default "" tcin) None);
       match product productData with
       | None =>
           mret {| res_status := 404;
                   res_body := errorBody "PRODUCT_NOT_FOUND"
                                 ("Product with TCIN " +:+ default "" tcin +:+ " not found") [] |}
       | Some data =>
           mret {| res_status := 200; res_body := productBody data productData |}
       end)
    "Failed to fetch product information".

(** [GET /api/products/upc/:gtin] *)
Definition getProductByUpc (req : Request) : Handler :=
  handle
    (let gtin := params_gtin req in
     if negb (truthyParam gtin) || negb (Api.digitsBetween 8 14 (default "" gtin)) then
       throw (ValidationError "Invalid UPC/GTIN format. Must be 8-14 digits." "gtin"
                (JObj (member "gtin" (JStr <$> gtin))))
     else
       productData ← fromClient (Api.getProductByGtin env upstream (default "" gtin) None);
       match product productData with
       | None =>
           mret {| res_status := 404;
                   res_body := errorBody "PRODUCT_NOT_FOUND"
                                 ("Product with UPC/GTIN " +:+ default "" gtin +:+ " not found") [] |}
       | Some data =>
           mret {| res_status := 200; res_body := productBody data productData |}
       end)
    "Failed to fetch product information".

(** [pageParam ? parseInt(pageParam, 10) : 1]; [None] is [NaN]. *)
Definition parsePage (pageParam : option string) : option Z :=
  if truthyParam pageParam then Js.parseInt10 (default "" pageParam) else Some 1.

(** [Number.isNaN(page) || page < 1] *)
Definition badPage (page : option Z) : bool :=
  match page with
  | Some n => n <? 1
  | None => true
  end.

(** The body sent when the search has no result. *)
Definition emptySearchBody (page : Z) : Json :=
  JObj [("success", JBool true);
        ("data", JObj [("results", JArr []);
                       ("pagination", JObj [("current_page", JNum page);
                                            ("total_pages", JNum 0);
                                            ("total_results", JNum 0)]);
                       ("message", JStr "No products found matching your search")])].

Definition searchBody (results : list Json) (searchResults : ApiResponse) : Json :=
  JObj ([("success", JBool true);
         ("data", JObj ([("results", JArr results)] ++
                        member "pagination" (pagination searchResults) ++
                        member "facets" (facets searchResults) ++
                        member "categories" (categories searchResults) ++
                        member "related_queries" (related_queries searchResults)))] ++
        member "request_info" (request_info searchResults) ++
        member "request_metadata" (request_metadata searchResults)).

(** [GET /api/products/search?q=&page=&sort=] *)
Definition searchProductsHandler (req : Request) : Handler :=
  handle
    (let searchTerm := query_q req in
     let pageParam := query_page req in
     let sortBy := query_sort req in
     if negb (truthyJson searchTerm) || negb (isString searchTerm) ||
        (String.length (Js.trim (stringOf searchTerm)) =? 0)%nat then
       throw (ValidationError "Search term is required and must not be empty" "q"
                (JObj (member "searchTerm" searchTerm)))
     else
       let page := parsePage pageParam in
       if badPage page then
         throw (ValidationError "Page must be a positive integer" "page"
                  (JObj (member "page" (JStr <$> pageParam))))
       else
         searchResults ←
           fromClient
             (Api.searchProducts env upstream (Js.trim (stringOf searchTerm))
                (Some {| skipCache := None; timeout := None;
                         page := page; sortBy := sortBy |}));
         match search_results searchResults with
         | None | Some [] =>
             mret {| res_status := 200; res_body := emptySearchBody (default 1 page) |}
         | Some results =>
             mret {| res_status := 200; res_body := searchBody results searchResults |}
         end)
    "Failed to search products".

End Handlers.

End Controller.

(* ====================================================================== *)
(** ** Concrete worlds used in examples                                    *)
(* ====================================================================== *)

Module Sample.

(** One possible pair of key generators. *)
Definition keys : CacheKeys := {|
  generateProductCacheKey := fun tcin => "product_" +:+ tcin;
  generateProductStockCacheKey := fun zipCode tcin => "stock_" +:+ zipCode +:+ "_" +:+ tcin
|}.

Definition env : Env := {|
  TARGET_API_KEY := Some "k3y";
  TARGET_API_BASE_URL := None;
  NODE_ENV := Some "production"
|}.

Definition emptyCache (ttl : Z) : Cache := {| cache_ttl := ttl; cache_entries := ∅ |}.

(** A process that has just started at time 0: one hour for products, one
    minute for stock. *)
Definition fresh : State := {|
  clock := 0;
  productCache := emptyCache 3600000;
  stockCache := emptyCache 60000
|}.

Definition noOptions : option ApiRequestOptions := None.

Definition emptyResponse : ApiResponse := {|
  product := None; request_info := None; request_metadata := None;
  location_info := None; search_results := None; pagination := None;
  facets := None; categories := None; related_queries := None;
  store_stock_results := None
|}.

Definition productResponse (title : string) : ApiResponse := {|
  product := Some (JObj [("title", JStr title)]);
  request_info := Some (JObj [("success", JBool true)]);
  request_metadata := None;
  location_info := None; search_results := None; pagination := None;
  facets := None; categories := None; related_queries := None;
  store_stock_results := None
|}.

Definition searchResponse (titles : list string) : ApiResponse := {|
  product := None; request_info := None; request_metadata := None;
  location_info := None;
  search_results := Some (map (fun t => JObj [("title", JStr t)]) titles);
  pagination := Some (JObj [("total_results", JNum (Z.of_nat (length titles)))]);
  facets := None; categories := None; related_queries := None;
  store_stock_results := None
|}.

Definition httpError (code : Z) : Failure :=
  AxiosFailure {|
    axios_message := "Request failed with status code " +:+ Js.numberToString code;
    axios_response := Some {| resp_status := code; resp_data := None; resp_headers := [] |}
  |}.

(** The value sent for one query parameter. *)
Definition param (name : string) (params : Params) : string :=
  default "" (snd <$> List.find (fun p => String.eqb (fst p) name) params).

(** An upstream that answers every request after 120 ms with HTTP 404. *)
Definition notFoundUpstream : Upstream :=
  fun _ _ => {| elapsed := 120; outcome := inr (httpError 404) |}.

(** An upstream that knows every product but [missing], with a stock
    report for each. *)
Definition catalogueWithout (missing : string) : Upstream :=
  fun params _ =>
    {| elapsed := 120;
       outcome :=
         if String.eqb (param "tcin" params) missing
         then inr (httpError 404)
         else inl (productResponse ("item " +:+ param "tcin" params)) |}.

Definition catalogue : Upstream := catalogueWithout "99999999".

(** An upstream that answers a search with one result named after the
    search term, page and sort order. *)
Definition searchEngine : Upstream :=
  fun params _ =>
    {| elapsed := 80;
       outcome :=
         inl (searchResponse
                [param "search_term" params +:+ "/" +:+ param "page" params +:+ "/" +:+
                 param "sort_by" params]) |}.

(** An upstream whose searches find nothing. *)
Definition emptySearchEngine : Upstream :=
  fun _ _ => {| elapsed := 80; outcome := inl (searchResponse []) |}.

(** [Number(s).toString()] on the strings of one to fifteen decimal digits,
    which a double holds exactly: the digits without their leading zeros.
    Other strings are outside this table and are given no key. *)
Definition decimalNumberKey (s : string) : option string :=
  if Api.digitsBetween 1 15 s
  then Js.numberToString <$> Js.readDigits None s
  else None.

End Sample.

(* ====================================================================== *)
(** ** Notions used in the statements                                      *)
(* ====================================================================== *)

(** Every single-item operation of the client reads the cache unless told
    not to, and otherwise sends one request, stores the body and returns
    it, or throws the classified error. The five operations differ in the
    cache, the key, the query parameters and the context string only. *)
Definition fetchThroughCache (upstream : Upstream) (c : CacheName) (key : string)
    (params : Params) (ctx : string) (options : option ApiRequestOptions)
    : Eff ApiError ApiResponse :=
  cached ← lookupUnlessSkipped options c key;
  match cached with
  | Some found => mret found
  | None =>
      tryCatch
        (data ← httpGet upstream params (timeoutOf options);
         cacheSet c key data;;
         mret data)
        (fun error => throw (handleApiError error (Some ctx)))
  end.

(** The state once a response has arrived and has been stored. *)
Definition stored (c : CacheName) (key : string) (data : ApiResponse) (dt : Z)
    (st : State) : State :=
  withCache c
    (setCachedValue (cacheOf c (advance dt st)) key data None (clock st + dt))
    (advance dt st).

(** What the opening cache lookup leaves in the log. *)
Definition lookupLog (options : option ApiRequestOptions) (c : CacheName) (key : string)
    : list Event :=
  if skipCacheOf options then [] else [CacheRead c key].

(** What the opening cache lookup finds. *)
Definition lookupFinds (options : option ApiRequestOptions) (c : CacheName) (key : string)
    (st : State) : option ApiResponse :=
  if skipCacheOf options then None else getCachedValue (cacheOf c st) key (clock st).

(** The events a cached operation may perform: accesses to its own cache
    under its own key, and requests with its own parameters. *)
Definition ownEvent (c : CacheName) (key : string) (params : Params)
    (options : option ApiRequestOptions) (ev : Event) : Prop :=
  match ev with
  | CacheRead c' key' => c' = c /\ key' = key
  | CacheWrite c' key' _ => c' = c /\ key' = key
  | HttpGet params' tmo => params' = params /\ tmo = timeoutOf options
  end.

(** The [error.code] member of a response body. *)
Definition bodyErrorCode (body : Json) : option string :=
  match body with
  | JObj fields =>
      match getField "error" fields with
      | Some (JObj errorFields) =>
          match getField "code" errorFields with
          | Some (JStr code) => Some code
          | _ => None
          end
      | _ => None
      end
  | _ => None
  end.

(** The options [searchProductsHandler] passes to the client. *)
Definition searchOptions (page : Z) (sort : option string) : option ApiRequestOptions :=
  Some {| skipCache := None; timeout := None; page := Some page; sortBy := sort |}.

(** The response to a product lookup once the client call has settled. *)
Definition productResponse (env : Env) (what ident : string)
    (r : Result ApiError ApiResponse) : Controller.Response :=
  match r with
  | Returned productData =>
      match product productData with
      | None =>
          {| Controller.res_status := 404;
             Controller.res_body :=
               Controller.errorBody "PRODUCT_NOT_FOUND"
                 ("Product with " +:+ what +:+ " " +:+ ident +:+ " not found") [] |}
      | Some data =>
          {| Controller.res_status := 200;
             Controller.res_body := Controller.productBody data productData |}
      end
  | Thrown e =>
      Controller.onError env "Failed to fetch product information" (Controller.ClientError e)
  end.

(** The response to a search once the client call has settled. *)
Definition searchResponse (env : Env) (page : Z) (r : Result ApiError ApiResponse)
    : Controller.Response :=
  match r with
  | Returned searchResults =>
      match search_results searchResults with
      | None | Some [] =>
          {| Controller.res_status := 200;
             Controller.res_body := Controller.emptySearchBody page |}
      | Some results =>
          {| Controller.res_status := 200;
             Controller.res_body := Controller.searchBody results searchResults |}
      end
  | Thrown e =>
      Controller.onError env "Failed to search products" (Controller.ClientError e)
  end.

(** What a settled call returned, if it returned. *)
Definition returned {E A} (run : Result E A * State * list Event) : option A :=
  match fst (fst run) with
  | Returned a => Some a
  | Thrown _ => None
  end.

(** The keys one successful identifier is stored under. *)
Definition storedUnder (numberKey : string -> option string) (tcin key : string) : Prop :=
  key = tcin \/ numberKey tcin = Some key.

(** The result of a bulk call over [tcins] in which [bad] failed and the
    others, run one by one by [single], succeeded: the call returned a
    mapping whose keys are the keys of the successful identifiers, whose
    values are payloads of successful identifiers stored under that key, and
    in which [bad] appears only as the number key of a successful one. *)
Definition isolates (numberKey : string -> option string)
    (single : string -> Result ApiError ApiResponse * State * list Event)
    (tcins : list string) (bad : string)
    (run : Result ApiError (gmap string ApiResponse) * State * list Event) : Prop :=
  exists m : gmap string ApiResponse,
    fst (fst run) = Returned m /\
    (forall key, is_Some (m !! key) <->
                 exists tcin, In tcin tcins /\ tcin <> bad /\ storedUnder numberKey tcin key) /\
    (forall key value, m !! key = Some value ->
                       exists tcin, In tcin tcins /\ returned (single tcin) = Some value /\
                                    storedUnder numberKey tcin key) /\
    (is_Some (m !! bad) <->
     exists tcin, In tcin tcins /\ tcin <> bad /\ numberKey tcin = Some bad).

(* ====================================================================== *)
(** * Properties                                                           *)
(* ====================================================================== *)

(** ** The error classifier *)

Section Classifier.

Variables (axiosError : AxiosError) (ctx : option string).

(** Without a response there is no status and no body, and the error falls
    through to the last case with the code [NETWORK_ERROR]. *)
Lemma handleApiError_no_response :
  axios_response axiosError = None ->
  err_code (handleApiError (AxiosFailure axiosError) ctx) = CodeName "NETWORK_ERROR".
Proof.
  intros Hnone. unfold handleApiError. rewrite Hnone. reflexivity.
Qed.

(** A 404 is classified as [PRODUCT_NOT_FOUND] whatever the body says. *)
Lemma handleApiError_404 (r : AxiosResponse) :
  axios_response axiosError = Some r ->
  resp_status r = 404 ->
  err_code (handleApiError (AxiosFailure axiosError) ctx) = CodeName "PRODUCT_NOT_FOUND".
Proof.
  intros Hr H404. unfold handleApiError. rewrite Hr. cbn. rewrite H404. reflexivity.
Qed.

End Classifier.

(** C2, as stated, fails: an upstream HTTP 500 without a body, hence with
    a status outside 404, 429, 401 and 403 and no recognised error code, is
    given the number 500 as its code, not [NETWORK_ERROR]. *)
Lemma handleApiError_500_is_not_NETWORK_ERROR :
  let error := Sample.httpError 500 in
  let classified := handleApiError error (Some "TCIN 78025470") in
  error = AxiosFailure
            {| axios_message := "Request failed with status code 500";
               axios_response :=
                 Some {| resp_status := 500; resp_data := None; resp_headers := [] |} |} /\
  err_code classified = CodeStatus 500 /\
  err_code classified <> CodeName "NETWORK_ERROR" /\
  status (err_details classified) = None.
Proof.
  cbv zeta. split; [reflexivity |].
  split; [reflexivity |]. split; [discriminate | reflexivity].
Qed.

(** C2, amended: for an upstream HTTP error response whose status is not
    404, 429, 401 or 403 and whose body carries no recognised error code,
    [handleApiError] returns a typed error whose code is the numeric HTTP
    status itself ([NETWORK_ERROR] only for a status of 0), whose message is
    the original message, and whose details hold the context and the
    original message, not the status. *)
Theorem handleApiError_other_status (axiosError : AxiosError) (r : AxiosResponse)
    (ctx : option string) :
  axios_response axiosError = Some r ->
  resp_status r <> 404 -> resp_status r <> 429 ->
  resp_status r <> 401 -> resp_status r <> 403 ->
  isCode (errorCodeOf (resp_data r)) "PRODUCT_NOT_FOUND" = false ->
  isCode (errorCodeOf (resp_data r)) "RATE_LIMIT_EXCEEDED" = false ->
  handleApiError (AxiosFailure axiosError) ctx =
    {| err_message := axios_message axiosError;
       err_code := if resp_status r =? 0 then CodeName "NETWORK_ERROR"
                   else CodeStatus (resp_status r);
       err_details := {| context := ctx; status := None; retryAfter := None;
                         originalError := Some (axios_message axiosError) |} |}.
Proof.
  intros Hr H404 H429 H401 H403 Hpnf Hrle.
  unfold handleApiError. rewrite Hr. cbn.
  rewrite Hpnf, Hrle.
  apply Z.eqb_neq in H404, H429, H401, H403.
  rewrite H404, H429, H401, H403. reflexivity.
Qed.

Lemma handleApiError_other_status_witness :
  handleApiError (Sample.httpError 503) (Some "GTIN 012345678905") =
    {| err_message := "Request failed with status code 503";
       err_code := CodeStatus 503;
       err_details := {| context := Some "GTIN 012345678905"; status := None;
                         retryAfter := None;
                         originalError := Some "Request failed with status code 503" |} |}.
Proof.
  apply (handleApiError_other_status
           {| axios_message := "Request failed with status code 503";
              axios_response :=
                Some {| resp_status := 503; resp_data := None; resp_headers := [] |} |}
           {| resp_status := 503; resp_data := None; resp_headers := [] |}
           (Some "GTIN 012345678905"));
    cbn; first [reflexivity | lia].
Defined.

(** ** URL helpers *)

Lemma extractTcinFromUrl_example :
  Api.extractTcinFromUrl "https://www.target.com/p/product-name/-/A-78025470" = Some "78025470".
Proof. reflexivity. Qed.

Lemma generateProductUrl_example :
  Api.generateProductUrl "78025470" = "https://www.target.com/p/-/A-78025470".
Proof. reflexivity. Qed.

Lemma isValidTcin_examples :
  Api.isValidTcin "78025470" = true /\ Api.isValidTcin "123" = false /\
  Api.isValidTcin "12345678901" = false.
Proof. repeat split. Qed.

Lemma append_cons (c : ascii) (s t : string) : String c s +:+ t = String c (s +:+ t).
Proof. reflexivity. Qed.

Lemma append_nil (t : string) : "" +:+ t = t.
Proof. reflexivity. Qed.

(** On the generated URL the pattern first matches at the final [/A-], if
    eight digits follow; otherwise the search goes on inside the
    identifier. *)
Lemma extract_generated (tcin : string) :
  Api.extractTcinFromUrl (Api.generateProductUrl tcin) =
  match Api.takeDigits 8 tcin with
  | Some t => Some t
  | None => Api.extractTcinFromUrl tcin
  end.
Proof.
  unfold Api.generateProductUrl. rewrite !append_cons, append_nil.
  reflexivity.
Qed.

Lemma takeDigits_all (s : string) :
  Js.allChars Js.isDigit s = true -> Api.takeDigits (String.length s) s = Some s.
Proof.
  induction s as [| c s IH]; cbn; [reflexivity |].
  intros Hall. apply andb_prop in Hall as [Hc Hs].
  rewrite Hc, (IH Hs). reflexivity.
Qed.

(** The two helpers are inverse on the identifiers of exactly eight
    digits. *)
Lemma extract_generate_eight_digits (tcin : string) :
  Js.allChars Js.isDigit tcin = true -> String.length tcin = 8%nat ->
  Api.extractTcinFromUrl (Api.generateProductUrl tcin) = Some tcin.
Proof.
  intros Hall Hlen. rewrite extract_generated.
  rewrite <- Hlen, (takeDigits_all _ Hall). reflexivity.
Qed.

Lemma takeDigits_prefix (n : nat) (s : string) :
  Js.allChars Js.isDigit s = true -> (n <= String.length s)%nat ->
  Api.takeDigits n s = Some (String.substring 0 n s).
Proof.
  revert s. induction n as [| n IH]; intros s Hall Hlen.
  - destruct s; reflexivity.
  - destruct s as [| c s]; cbn in Hlen; [lia |].
    cbn in Hall. apply andb_prop in Hall as [Hc Hs].
    cbn. rewrite Hc, (IH s Hs) by lia. reflexivity.
Qed.

(** On every identifier [isValidTcin] accepts, the round trip gives back
    the first eight digits, which is the identifier only when it has eight
    digits. *)
Lemma extract_generate_valid (tcin : string) :
  Api.isValidTcin tcin = true ->
  Api.extractTcinFromUrl (Api.generateProductUrl tcin) = Some (String.substring 0 8 tcin).
Proof.
  unfold Api.isValidTcin, Api.digitsBetween. intros Hvalid.
  apply andb_prop in Hvalid as [Hvalid _]. apply andb_prop in Hvalid as [Hall Hlen].
  apply Nat.leb_le in Hlen.
  rewrite extract_generated, (takeDigits_prefix 8 tcin Hall Hlen). reflexivity.
Qed.

(** C3: for the identifier [123456789], which [isValidTcin] accepts, the
    URL built by [generateProductUrl] is read back by [extractTcinFromUrl]
    as [12345678]: the pattern captures eight digits and stops, so the two
    helpers are not inverse on the well-formed identifiers of nine and ten
    digits. The two examples of the specification hold. *)
Theorem extract_generate_nine_digits :
  Api.isValidTcin "123456789" = true /\
  Api.generateProductUrl "123456789" = "https://www.target.com/p/-/A-123456789" /\
  Api.extractTcinFromUrl (Api.generateProductUrl "123456789") = Some "12345678" /\
  Api.extractTcinFromUrl "https://www.target.com/p/product-name/-/A-78025470" = Some "78025470" /\
  Api.generateProductUrl "78025470" = "https://www.target.com/p/-/A-78025470".
Proof. repeat split. Qed.

(** ** The shape shared by the cached operations *)

Section Shape.

Context `{keys : CacheKeys} (env : Env) (upstream : Upstream).

Lemma checkStoreStock_shape tcin zipCode storeId options :
  Api.checkStoreStock env upstream tcin zipCode storeId options =
  fetchThroughCache upstream StockCache (generateProductStockCacheKey zipCode tcin)
    [("api_key", API_KEY env); ("type", "store_stock"); ("tcin", tcin);
     ("store_stock_zipcode", zipCode)]
    ("TCIN " +:+ tcin) options.
Proof. reflexivity. Qed.

Lemma getProductByTcin_shape tcin options :
  Api.getProductByTcin env upstream tcin options =
  fetchThroughCache upstream ProductCache (generateProductCacheKey tcin)
    [("api_key", API_KEY env); ("type", "product"); ("tcin", tcin)]
    ("TCIN " +:+ tcin) options.
Proof. reflexivity. Qed.

Lemma getFullProductByTcin_shape tcin options :
  Api.getFullProductByTcin env upstream tcin options =
  fetchThroughCache upstream ProductCache ("full_product_" +:+ tcin)
    [("api_key", API_KEY env); ("type", "product"); ("tcin", tcin)]
    ("TCIN " +:+ tcin) options.
Proof. reflexivity. Qed.

Lemma getProductByGtin_shape gtin options :
  Api.getProductByGtin env upstream gtin options =
  fetchThroughCache upstream ProductCache ("product_gtin_" +:+ gtin)
    [("api_key", API_KEY env); ("type", "product"); ("gtin", gtin)]
    ("GTIN " +:+ gtin) options.
Proof. reflexivity. Qed.

Lemma searchProducts_shape searchTerm options :
  Api.searchProducts env upstream searchTerm options =
  fetchThroughCache upstream ProductCache
    (Api.searchCacheKey searchTerm (Js.orNumber (options ≫= page) 1) (options ≫= sortBy))
    (Api.searchParams (API_KEY env) searchTerm (Js.orNumber (options ≫= page) 1)
       (options ≫= sortBy))
    ("Search: " +:+ searchTerm) options.
Proof. reflexivity. Qed.

Variables (c : CacheName) (key : string) (params : Params) (ctx : string)
          (options : option ApiRequestOptions) (st : State).

(** The three ways a cached operation can go. *)
Lemma fetchThroughCache_run :
  fetchThroughCache upstream c key params ctx options st =
  match lookupFinds options c key st with
  | Some found => (Returned found, st, lookupLog options c key)
  | None =>
      let reply := upstream params (timeoutOf options) in
      match outcome reply with
      | inl data =>
          (Returned data, stored c key data (elapsed reply) st,
           lookupLog options c key ++
           [HttpGet params (timeoutOf options); CacheWrite c key data])
      | inr failure =>
          (Thrown (handleApiError failure (Some ctx)), advance (elapsed reply) st,
           lookupLog options c key ++ [HttpGet params (timeoutOf options)])
      end
  end.
Proof.
  unfold fetchThroughCache, lookupFinds, lookupLog, lookupUnlessSkipped.
  unfold mbind, Eff_bind, bind, mret, Eff_ret, ret, tryCatch, httpGet, cacheSet,
    cacheGet, throw, stored.
  destruct (skipCacheOf options); cbn.
  - destruct (outcome (upstream params (timeoutOf options))); reflexivity.
  - destruct (getCachedValue (cacheOf c st) key (clock st)); [reflexivity |].
    destruct (outcome (upstream params (timeoutOf options))); reflexivity.
Qed.

(** A cached operation only ever touches its own cache under its own key,
    and only ever sends its own parameters. *)
Lemma fetchThroughCache_events :
  Forall (ownEvent c key params options) (snd (fetchThroughCache upstream c key params ctx options st)).
Proof.
  rewrite fetchThroughCache_run. unfold lookupLog.
  destruct (lookupFinds options c key st); [| cbv zeta;
    destruct (outcome (upstream params (timeoutOf options)))];
    destruct (skipCacheOf options); cbn; repeat constructor.
Qed.

End Shape.

(** ** Store stock and the store identifier *)

(** C5: for every TCIN, zip code and options, [checkStoreStock] does the
    same for any two values of the store identifier (absent included): the
    same result, the same final state and the same effects, hence the same
    cache key and the same upstream query parameters. Its only requests
    carry [api_key], [type], [tcin] and [store_stock_zipcode], and its only
    cache accesses are to the stock cache under the key generated from the
    zip code and the TCIN: the store identifier is never transmitted. *)
Theorem checkStoreStock_ignores_storeId `{keys : CacheKeys} (env : Env) (upstream : Upstream)
    (tcin zipCode : string) (storeId1 storeId2 : option string)
    (options : option ApiRequestOptions) (st : State) :
  Api.checkStoreStock env upstream tcin zipCode storeId1 options st =
  Api.checkStoreStock env upstream tcin zipCode storeId2 options st /\
  Forall (fun ev =>
            match ev with
            | CacheRead c key | CacheWrite c key _ =>
                c = StockCache /\ key = generateProductStockCacheKey zipCode tcin
            | HttpGet params tmo =>
                params = [("api_key", API_KEY env); ("type", "store_stock");
                          ("tcin", tcin); ("store_stock_zipcode", zipCode)] /\
                tmo = timeoutOf options
            end)
         (snd (Api.checkStoreStock env upstream tcin zipCode storeId1 options st)).
Proof.
  split; [reflexivity |].
  rewrite checkStoreStock_shape.
  eapply List.Forall_impl; [| apply fetchThroughCache_events].
  intros [c key | c key value | params tmo]; cbn; trivial.
Qed.

(** ** Repeated product lookups *)

Section Repeat.

Context `{keys : CacheKeys} (upstream : Upstream).
Variables (c : CacheName) (key : string) (params : Params) (ctx : string).

Lemma cacheOf_withCache (cache : Cache) (st : State) :
  cacheOf c (withCache c cache st) = cache.
Proof. destruct c; reflexivity. Qed.

Lemma cacheOf_advance (dt : Z) (st : State) : cacheOf c (advance dt st) = cacheOf c st.
Proof. destruct c; reflexivity. Qed.

(** A response that has just been fetched sits in the cache, stamped with
    the time of its arrival and the default time to live of the cache. *)
Lemma stored_entry (data : ApiResponse) (dt : Z) (st : State) :
  cache_entries (cacheOf c (stored c key data dt st)) !! key =
  Some {| entry_value := data; entry_stored := clock st + dt;
          entry_ttl := cache_ttl (cacheOf c st) |}.
Proof.
  unfold stored. rewrite cacheOf_withCache, cacheOf_advance.
  cbn. apply lookup_insert_eq.
Qed.

(** Whatever a cached operation returns is in the cache afterwards, under
    the key of the operation. *)
Lemma fetchThroughCache_leaves_entry options st found st1 events :
  fetchThroughCache upstream c key params ctx options st = (Returned found, st1, events) ->
  exists e, cache_entries (cacheOf c st1) !! key = Some e /\ entry_value e = found.
Proof.
  rewrite fetchThroughCache_run. unfold lookupFinds.
  destruct (skipCacheOf options).
  - cbv zeta. destruct (outcome _) as [data | failure]; [| discriminate].
    intros [= <- <- _]. eexists. split; [apply stored_entry | reflexivity].
  - unfold getCachedValue.
    destruct (cache_entries (cacheOf c st) !! key) as [e |] eqn:Hentry.
    + destruct (entryLive (clock st) e).
      * intros [= <- <- _]. eauto.
      * cbv zeta. destruct (outcome _) as [data | failure]; [| discriminate].
        intros [= <- <- _]. eexists. split; [apply stored_entry | reflexivity].
    + cbv zeta. destruct (outcome _) as [data | failure]; [| discriminate].
      intros [= <- <- _]. eexists. split; [apply stored_entry | reflexivity].
Qed.

(** A live entry answers the next call: no request, no write. *)
Lemma fetchThroughCache_hit options st e :
  skipCacheOf options = false ->
  cache_entries (cacheOf c st) !! key = Some e ->
  entryLive (clock st) e = true ->
  fetchThroughCache upstream c key params ctx options st =
  (Returned (entry_value e), st, [CacheRead c key]).
Proof.
  intros Hskip Hentry Hlive. rewrite fetchThroughCache_run.
  unfold lookupFinds, lookupLog, getCachedValue.
  rewrite Hskip, Hentry, Hlive. reflexivity.
Qed.

End Repeat.

(** A freshly fetched product stays live for the default time to live of
    the product cache. *)
Lemma getProductByTcin_fresh_entry `{keys : CacheKeys} (env : Env) (upstream : Upstream)
    (tcin : string) (options : option ApiRequestOptions) (st : State) (data : ApiResponse) :
  lookupFinds options ProductCache (generateProductCacheKey tcin) st = None ->
  outcome (upstream [("api_key", API_KEY env); ("type", "product"); ("tcin", tcin)]
             (timeoutOf options)) = inl data ->
  let dt := elapsed (upstream [("api_key", API_KEY env); ("type", "product"); ("tcin", tcin)]
                       (timeoutOf options)) in
  exists st1 events,
    Api.getProductByTcin env upstream tcin options st = (Returned data, st1, events) /\
    clock st1 = clock st + dt /\
    cache_entries (productCache st1) !! generateProductCacheKey tcin =
    Some {| entry_value := data; entry_stored := clock st + dt;
            entry_ttl := cache_ttl (productCache st) |}.
Proof.
  intros Hmiss Hok dt. rewrite getProductByTcin_shape, fetchThroughCache_run, Hmiss.
  cbv zeta. rewrite Hok. do 2 eexists. split; [reflexivity |].
  split; [reflexivity |].
  apply (stored_entry ProductCache).
Qed.

(** C6: if [getProductByTcin] succeeds for a TCIN and is called again for
    it without [skipCache] after [dt] more milliseconds, while the entry
    cached under its key is still within its time to live, the second call
    returns the payload the first one returned, leaves the state as it is,
    and does nothing but read the cache: no upstream request is issued,
    whatever the upstream would answer by then. *)
Theorem getProductByTcin_repeat_within_ttl `{keys : CacheKeys} (env : Env)
    (upstream upstream' : Upstream) (tcin : string)
    (options options' : option ApiRequestOptions)
    (st st1 : State) (payload : ApiResponse) (events : list Event) (dt : Z) :
  Api.getProductByTcin env upstream tcin options st = (Returned payload, st1, events) ->
  skipCacheOf options' = false ->
  (forall e, cache_entries (productCache st1) !! generateProductCacheKey tcin = Some e ->
             entryLive (clock st1 + dt) e = true) ->
  Api.getProductByTcin env upstream' tcin options' (advance dt st1) =
  (Returned payload, advance dt st1,
   [CacheRead ProductCache (generateProductCacheKey tcin)]).
Proof.
  intros Hfirst Hskip Hlive.
  rewrite getProductByTcin_shape in Hfirst.
  apply fetchThroughCache_leaves_entry in Hfirst as (e & Hentry & <-).
  rewrite getProductByTcin_shape.
  apply fetchThroughCache_hit; [exact Hskip | exact Hentry |].
  apply Hlive. exact Hentry.
Qed.

Lemma getProductByTcin_repeat_within_ttl_witness :
  let first :=
    Api.getProductByTcin (keys := Sample.keys) Sample.env Sample.catalogue "78025470"
      None Sample.fresh in
  Api.getProductByTcin (keys := Sample.keys) Sample.env Sample.notFoundUpstream "78025470"
    None (advance 1000 (snd (fst first))) =
  (Returned (Sample.productResponse "item 78025470"), advance 1000 (snd (fst first)),
   [CacheRead ProductCache "product_78025470"]).
Proof.
  cbv zeta.
  apply (getProductByTcin_repeat_within_ttl (keys := Sample.keys) Sample.env
           Sample.catalogue Sample.notFoundUpstream "78025470" None None Sample.fresh
           (snd (fst (Api.getProductByTcin (keys := Sample.keys) Sample.env
                        Sample.catalogue "78025470" None Sample.fresh)))
           (Sample.productResponse "item 78025470")
           (snd (Api.getProductByTcin (keys := Sample.keys) Sample.env
                   Sample.catalogue "78025470" None Sample.fresh))
           1000).
  - vm_compute. reflexivity.
  - reflexivity.
  - intros e He. vm_compute in He. injection He as <-. reflexivity.
Defined.

(** ** The cache key of a search *)

(** C8: the cache key of a search is not injective. The queries
    [('a_page1', 2, absent)] and [('a', 1, 'page2_default')] differ and
    have the same key; once the first has been answered and cached, the
    second is answered from the cache with the results of the first and
    without a request, although the upstream has a different answer for
    it. *)
Theorem searchCacheKey_not_injective :
  let query1 := Some {| skipCache := None; timeout := None; page := Some 2; sortBy := None |} in
  let query2 := Some {| skipCache := None; timeout := None; page := Some 1;
                        sortBy := Some "page2_default" |} in
  let search := Api.searchProducts Sample.env Sample.searchEngine in
  let first := search "a_page1" query1 Sample.fresh in
  let second := search "a" query2 (snd (fst first)) in
  ("a_page1", 2, @None string) <> ("a", 1, Some "page2_default") /\
  Api.searchCacheKey "a_page1" 2 None = "search_a_page1_page2_default" /\
  Api.searchCacheKey "a" 1 (Some "page2_default") = "search_a_page1_page2_default" /\
  fst (fst first) = Returned (Sample.searchResponse ["a_page1/2/"]) /\
  fst (fst second) = Returned (Sample.searchResponse ["a_page1/2/"]) /\
  snd second = [CacheRead ProductCache "search_a_page1_page2_default"] /\
  fst (fst (search "a" query2 Sample.fresh)) =
    Returned (Sample.searchResponse ["a/1/page2_default"]).
Proof.
  cbv zeta. split; [discriminate |].
  repeat (split; [vm_compute; reflexivity |]). vm_compute. reflexivity.
Qed.

(** ** Trimming *)

Section Trim.

Import Js.

Lemma trimStart_blank (s : string) : allChars isWhiteSpace s = true -> trimStart s = "".
Proof.
  induction s as [| c s IH]; cbn; [reflexivity |].
  intros Hall. apply andb_prop in Hall as [Hc Hs]. rewrite Hc. auto.
Qed.

Lemma trimEnd_blank (s : string) : allChars isWhiteSpace s = true -> trimEnd s = "".
Proof.
  induction s as [| c s IH]; cbn; [reflexivity |].
  intros Hall. apply andb_prop in Hall as [Hc Hs]. rewrite (IH Hs), Hc. reflexivity.
Qed.

Lemma trimStart_padding (l s : string) :
  allChars isWhiteSpace l = true -> trimStart (l +:+ s) = trimStart s.
Proof.
  induction l as [| c l IH]; [reflexivity |].
  cbn [allChars]. intros Hall. apply andb_prop in Hall as [Hc Hl].
  rewrite append_cons. cbn [trimStart]. rewrite Hc. auto.
Qed.

Lemma trimEnd_padding (s r : string) :
  allChars isWhiteSpace r = true -> trimEnd (s +:+ r) = trimEnd s.
Proof.
  intros Hr. induction s as [| c s IH].
  - rewrite append_nil. apply trimEnd_blank, Hr.
  - rewrite append_cons. cbn [trimEnd]. rewrite IH. reflexivity.
Qed.

Lemma trim_right_padding (s r : string) :
  allChars isWhiteSpace r = true -> trim (s +:+ r) = trim s.
Proof.
  intros Hr. unfold trim. induction s as [| c s IH].
  - rewrite append_nil, (trimStart_blank _ Hr). reflexivity.
  - rewrite append_cons. cbn [trimStart]. destruct (isWhiteSpace c); [exact IH |].
    rewrite <- append_cons. apply trimEnd_padding, Hr.
Qed.

(** White space around a string does not survive [trim]. *)
Lemma trim_padding (l core r : string) :
  allChars isWhiteSpace l = true -> allChars isWhiteSpace r = true ->
  trim (l +:+ core +:+ r) = trim core.
Proof.
  intros Hl Hr. unfold trim. rewrite (trimStart_padding _ _ Hl).
  apply trim_right_padding, Hr.
Qed.

Lemma trim_empty : trim "" = "".
Proof. reflexivity. Qed.

Lemma length_zero (s : string) : (String.length s =? 0)%nat = true <-> s = "".
Proof.
  destruct s; cbn; split; intros Heq; try reflexivity; discriminate.
Qed.

End Trim.

(** ** The controllers, case by case *)

Section Controllers.

Import Controller.

Context (env : Env) (upstream : Upstream).

Ltac run_handler :=
  unfold handle, mbind, Eff_bind, bind, fromClient, tryCatch, throw, mret, Eff_ret, ret.

Lemma digitsBetween_truthy (lo hi : nat) (s : string) :
  (0 < lo)%nat -> Api.digitsBetween lo hi s = true -> Js.truthyString s = true.
Proof.
  intros Hlo. destruct s; [| reflexivity].
  unfold Api.digitsBetween. cbn. destruct lo; [lia | cbn; discriminate].
Qed.

Lemma getProductByTcin_valid (req : Request) (st : State) (tcin : string) :
  params_tcin req = Some tcin -> Api.isValidTcin tcin = true ->
  getProductByTcin env upstream req st =
  let '(r, st', events) := Api.getFullProductByTcin env upstream tcin None st in
  (productResponse env "TCIN" tcin r, st', events).
Proof.
  intros Hparam Hvalid. unfold getProductByTcin. rewrite Hparam. cbn [default].
  unfold truthyParam. cbn [default]. unfold id.
  rewrite (digitsBetween_truthy 8 10 tcin ltac:(lia) Hvalid), Hvalid. cbn [negb orb].
  run_handler.
  destruct (Api.getFullProductByTcin env upstream tcin None st) as [[[pd | e] st'] events];
    [| cbn; rewrite app_nil_r; reflexivity].
  cbn. destruct (product pd); cbn; rewrite app_nil_r; reflexivity.
Qed.


Lemma getProductByUpc_valid (req : Request) (st : State) (gtin : string) :
  params_gtin req = Some gtin -> Api.digitsBetween 8 14 gtin = true ->
  getProductByUpc env upstream req st =
  let '(r, st', events) := Api.getProductByGtin env upstream gtin None st in
  (productResponse env "UPC/GTIN" gtin r, st', events).
Proof.
  intros Hparam Hvalid. unfold getProductByUpc. rewrite Hparam. cbn [default].
  unfold truthyParam. cbn [default]. unfold id.
  rewrite (digitsBetween_truthy 8 14 gtin ltac:(lia) Hvalid), Hvalid. cbn [negb orb].
  run_handler.
  destruct (Api.getProductByGtin env upstream gtin None st) as [[[pd | e] st'] events];
    [| cbn; rewrite app_nil_r; reflexivity].
  cbn. destruct (product pd); cbn; rewrite app_nil_r; reflexivity.
Qed.


Lemma nonblank_truthy (s : string) : Js.trim s <> "" -> Js.truthyString s = true.
Proof. destruct s; [intros Hne; contradiction Hne; reflexivity | reflexivity]. Qed.

Lemma searchProductsHandler_blank (req : Request) (st : State) :
  Js.trim (stringOf (query_q req)) = "" ->
  searchProductsHandler env upstream req st =
  ({| res_status := 400;
      res_body := errorBody "VALIDATION_ERROR"
                    "Search term is required and must not be empty"
                    [("field", JStr "q");
                     ("details", JObj (member "searchTerm" (query_q req)))] |},
   st, []).
Proof.
  intros Hblank. unfold searchProductsHandler. rewrite Hblank. cbn [String.length Nat.eqb].
  rewrite orb_true_r. reflexivity.
Qed.

Lemma searchProductsHandler_nonblank (req : Request) (st : State) (term : string) :
  query_q req = Some (JStr term) -> Js.trim term <> "" ->
  searchProductsHandler env upstream req st =
  match parsePage (query_page req) with
  | Some page =>
      if page <? 1 then
        ({| res_status := 400;
            res_body := errorBody "VALIDATION_ERROR" "Page must be a positive integer"
                          [("field", JStr "page");
                           ("details", JObj (member "page" (JStr <$> query_page req)))] |},
         st, [])
      else
        let '(r, st', events) :=
          Api.searchProducts env upstream (Js.trim term)
            (searchOptions page (query_sort req)) st in
        (searchResponse env page r, st', events)
  | None =>
      ({| res_status := 400;
          res_body := errorBody "VALIDATION_ERROR" "Page must be a positive integer"
                        [("field", JStr "page");
                         ("details", JObj (member "page" (JStr <$> query_page req)))] |},
       st, [])
  end.
Proof.
  intros Hq Hne. unfold searchProductsHandler. rewrite Hq.
  cbn [truthyJson isString stringOf].
  rewrite (nonblank_truthy term Hne). cbn [negb orb].
  destruct (String.length (Js.trim term) =? 0)%nat eqn:Hlen;
    [apply length_zero in Hlen; contradiction |].
  destruct (parsePage (query_page req)) as [page |]; [| reflexivity].
  cbn [badPage]. destruct (page <? 1); [reflexivity |].
  run_handler. unfold searchOptions.
  destruct (Api.searchProducts env upstream (Js.trim term) _ st) as [[[sr | e] st'] events];
    [| cbn; rewrite app_nil_r; reflexivity].
  cbn. destruct (search_results sr) as [[| result results] |];
    cbn; rewrite app_nil_r; reflexivity.
Qed.

End Controllers.

(** ** Product lookups that find nothing *)

Section NotFound.

Import Controller.

Context (env : Env) (upstream : Upstream).



(** An error thrown by the client is answered with status 500. *)
Lemma productResponse_thrown (what ident : string) (e : ApiError) :
  res_status (productResponse env what ident (Thrown e)) = 500 /\
  bodyErrorCode (res_body (productResponse env what ident (Thrown e))) = Some "INTERNAL_ERROR".
Proof. split; reflexivity. Qed.

(** When the upstream answers a lookup with HTTP 404, the client throws the
    typed error [PRODUCT_NOT_FOUND], and the handler answers it with status
    500 and the code [INTERNAL_ERROR]. *)
Lemma upstream_404_is_answered_500 (req : Request) (st : State) (tcin : string)
    (axiosError : AxiosError) (r : AxiosResponse) :
  params_tcin req = Some tcin -> Api.isValidTcin tcin = true ->
  getCachedValue (productCache st) ("full_product_" +:+ tcin) (clock st) = None ->
  outcome (upstream [("api_key", API_KEY env); ("type", "product"); ("tcin", tcin)]
             DEFAULT_TIMEOUT) = inr (AxiosFailure axiosError) ->
  axios_response axiosError = Some r -> resp_status r = 404 ->
  let '(thrown, _, _) := Api.getFullProductByTcin env upstream tcin None st in
  let '(response, _, _) := getProductByTcin env upstream req st in
  (exists e, thrown = Thrown e /\ err_code e = CodeName "PRODUCT_NOT_FOUND") /\
  res_status response = 500 /\
  bodyErrorCode (res_body response) = Some "INTERNAL_ERROR".
Proof.
  intros Hparam Hvalid Hmiss Hreply Hresponse H404.
  rewrite (getProductByTcin_valid env upstream req st tcin Hparam Hvalid).
  rewrite getFullProductByTcin_shape, fetchThroughCache_run.
  unfold lookupFinds. cbn [skipCacheOf cacheOf]. rewrite Hmiss.
  cbv zeta. change (timeoutOf None) with DEFAULT_TIMEOUT. rewrite Hreply.
  split; [| split; reflexivity].
  eexists. split; [reflexivity |].
  apply (handleApiError_404 _ _ r Hresponse H404).
Qed.

End NotFound.

(** C1: for the valid TCIN 78025470 and the valid barcode 012345678905, on
    empty caches, an upstream that answers HTTP 404 makes the client throw
    the typed error [PRODUCT_NOT_FOUND]; the handlers [getProductByTcin] and
    [getProductByUpc] then respond with HTTP status 500 and the error code
    [INTERNAL_ERROR], not with 404 and [PRODUCT_NOT_FOUND]. *)
Theorem upstream_404_lookup_responds_500 :
  let byTcin := {| Controller.params_tcin := Some "78025470";
                   Controller.params_gtin := None; Controller.query_q := None;
                   Controller.query_page := None; Controller.query_sort := None |} in
  let byUpc := {| Controller.params_tcin := None;
                  Controller.params_gtin := Some "012345678905";
                  Controller.query_q := None;
                  Controller.query_page := None; Controller.query_sort := None |} in
  Api.isValidTcin "78025470" = true /\
  Api.digitsBetween 8 14 "012345678905" = true /\
  (err_code <$> (match fst (fst (Api.getFullProductByTcin Sample.env Sample.notFoundUpstream
                                   "78025470" None Sample.fresh)) with
                 | Thrown e => Some e
                 | Returned _ => None
                 end)) = Some (CodeName "PRODUCT_NOT_FOUND") /\
  fst (fst (Controller.getProductByTcin Sample.env Sample.notFoundUpstream byTcin
              Sample.fresh)) =
    {| Controller.res_status := 500;
       Controller.res_body :=
         JObj [("error", JObj [("code", JStr "INTERNAL_ERROR");
                               ("message", JStr "Failed to fetch product information")])] |} /\
  fst (fst (Controller.getProductByUpc Sample.env Sample.notFoundUpstream byUpc
              Sample.fresh)) =
    {| Controller.res_status := 500;
       Controller.res_body :=
         JObj [("error", JObj [("code", JStr "INTERNAL_ERROR");
                               ("message", JStr "Failed to fetch product information")])] |}.
Proof.
  cbv zeta. repeat (split; [vm_compute; reflexivity |]). vm_compute. reflexivity.
Qed.


(** ** Searches *)

(** C7: for every search request whose term is a string that is not blank
    and whose page is a positive integer, if the client call succeeds with a
    payload whose [search_results] are absent or empty, the handler responds
    with status 200 and the body [success: true] with an empty [results]
    list and the pagination [current_page] = the requested page,
    [total_pages] = 0, [total_results] = 0; it is not an error response. *)
Theorem searchProductsHandler_no_results (env : Env) (upstream : Upstream)
    (req : Controller.Request) (st st' : State) (term : string) (page : Z)
    (payload : ApiResponse) (events : list Event) :
  Controller.query_q req = Some (JStr term) ->
  Js.trim term <> "" ->
  Controller.parsePage (Controller.query_page req) = Some page ->
  1 <= page ->
  Api.searchProducts env upstream (Js.trim term)
    (searchOptions page (Controller.query_sort req)) st = (Returned payload, st', events) ->
  search_results payload = None \/ search_results payload = Some [] ->
  Controller.searchProductsHandler env upstream req st =
  ({| Controller.res_status := 200;
      Controller.res_body :=
        JObj [("success", JBool true);
              ("data",
               JObj [("results", JArr []);
                     ("pagination", JObj [("current_page", JNum page);
                                          ("total_pages", JNum 0);
                                          ("total_results", JNum 0)]);
                     ("message", JStr "No products found matching your search")])] |},
   st', events).
Proof.
  intros Hq Hterm Hpage Hpositive Hrun Hempty.
  rewrite (searchProductsHandler_nonblank env upstream req st term Hq Hterm), Hpage.
  destruct (page <? 1) eqn:Hlt; [apply Z.ltb_lt in Hlt; lia |].
  rewrite Hrun. unfold searchResponse.
  destruct Hempty as [-> | ->]; reflexivity.
Qed.

Lemma searchProductsHandler_no_results_witness :
  let req := {| Controller.params_tcin := None; Controller.params_gtin := None;
                Controller.query_q := Some (JStr " desk lamp ");
                Controller.query_page := Some "2";
                Controller.query_sort := None |} in
  fst (fst (Controller.searchProductsHandler Sample.env Sample.emptySearchEngine req
              Sample.fresh)) =
  {| Controller.res_status := 200;
     Controller.res_body :=
       JObj [("success", JBool true);
             ("data",
              JObj [("results", JArr []);
                    ("pagination", JObj [("current_page", JNum 2);
                                         ("total_pages", JNum 0);
                                         ("total_results", JNum 0)]);
                    ("message", JStr "No products found matching your search")])] |}.
Proof.
  cbv zeta.
  rewrite (searchProductsHandler_no_results Sample.env Sample.emptySearchEngine
             {| Controller.params_tcin := None; Controller.params_gtin := None;
                Controller.query_q := Some (JStr " desk lamp ");
                Controller.query_page := Some "2";
                Controller.query_sort := None |}
             Sample.fresh
             (snd (fst (Api.searchProducts Sample.env Sample.emptySearchEngine "desk lamp"
                          (searchOptions 2 None) Sample.fresh)))
             " desk lamp " 2 (Sample.searchResponse [])
             (snd (Api.searchProducts Sample.env Sample.emptySearchEngine "desk lamp"
                     (searchOptions 2 None) Sample.fresh))).
  - reflexivity.
  - reflexivity.
  - vm_compute. discriminate.
  - reflexivity.
  - lia.
  - vm_compute. reflexivity.
  - right. reflexivity.
Defined.

(** C10: if the [q] parameters of two search requests are the same string
    up to white space before and after it, and the requests agree on [page]
    and [sort], then [searchProductsHandler] performs the same effects on
    both, with the same cache key and the same upstream query parameters,
    and leaves the same state; when the request is valid, these are the
    effects of [searchProducts] called with the trimmed term, and the two
    responses are the same as well. *)
Theorem searchProductsHandler_trims (env : Env) (upstream : Upstream)
    (req1 req2 : Controller.Request) (l1 r1 l2 r2 core : string) (st : State) :
  Js.allChars Js.isWhiteSpace l1 = true -> Js.allChars Js.isWhiteSpace r1 = true ->
  Js.allChars Js.isWhiteSpace l2 = true -> Js.allChars Js.isWhiteSpace r2 = true ->
  Controller.query_q req1 = Some (JStr (l1 +:+ core +:+ r1)) ->
  Controller.query_q req2 = Some (JStr (l2 +:+ core +:+ r2)) ->
  Controller.query_page req1 = Controller.query_page req2 ->
  Controller.query_sort req1 = Controller.query_sort req2 ->
  let run1 := Controller.searchProductsHandler env upstream req1 st in
  let run2 := Controller.searchProductsHandler env upstream req2 st in
  snd run1 = snd run2 /\
  snd (fst run1) = snd (fst run2) /\
  (Js.trim core <> "" -> fst (fst run1) = fst (fst run2)) /\
  (forall page,
     Js.trim core <> "" ->
     Controller.parsePage (Controller.query_page req1) = Some page -> 1 <= page ->
     let call := Api.searchProducts env upstream (Js.trim core)
                   (searchOptions page (Controller.query_sort req1)) st in
     snd run1 = snd call /\ snd run2 = snd call).
Proof.
  intros Hl1 Hr1 Hl2 Hr2 Hq1 Hq2 Hpage Hsort. cbv zeta.
  pose proof (trim_padding l1 core r1 Hl1 Hr1) as Htrim1.
  pose proof (trim_padding l2 core r2 Hl2 Hr2) as Htrim2.
  destruct (string_dec (Js.trim core) "") as [Hblank | Hne].
  - rewrite !searchProductsHandler_blank
      by (first [rewrite Hq1 | rewrite Hq2]; cbn [Controller.stringOf]; congruence).
    repeat split; try reflexivity; intros; contradiction.
  - rewrite (searchProductsHandler_nonblank env upstream req1 st _ Hq1)
      by (rewrite Htrim1; exact Hne).
    rewrite (searchProductsHandler_nonblank env upstream req2 st _ Hq2)
      by (rewrite Htrim2; exact Hne).
    rewrite Htrim1, Htrim2, <- Hpage, <- Hsort.
    split; [reflexivity | split; [reflexivity | split; [reflexivity |]]].
    intros page _ Hparsed Hpositive. rewrite Hparsed.
    destruct (page <? 1) eqn:Hlt; [apply Z.ltb_lt in Hlt; lia |].
    destruct (Api.searchProducts env upstream (Js.trim core) _ st) as [[r st'] events].
    split; reflexivity.
Qed.

Lemma searchProductsHandler_trims_witness :
  let query (q : string) :=
    {| Controller.params_tcin := None; Controller.params_gtin := None;
       Controller.query_q := Some (JStr q); Controller.query_page := Some "3";
       Controller.query_sort := Some "best_seller" |} in
  let run1 := Controller.searchProductsHandler Sample.env Sample.searchEngine
                (query "  desk lamp ") Sample.fresh in
  let run2 := Controller.searchProductsHandler Sample.env Sample.searchEngine
                (query "desk lamp   ") Sample.fresh in
  let call := Api.searchProducts Sample.env Sample.searchEngine "desk lamp"
                (searchOptions 3 (Some "best_seller")) Sample.fresh in
  snd run1 = snd run2 /\ snd (fst run1) = snd (fst run2) /\
  fst (fst run1) = fst (fst run2) /\ snd run1 = snd call /\ snd run2 = snd call.
Proof.
  cbv zeta.
  pose proof (searchProductsHandler_trims Sample.env Sample.searchEngine
                {| Controller.params_tcin := None; Controller.params_gtin := None;
                   Controller.query_q := Some (JStr "  desk lamp ");
                   Controller.query_page := Some "3";
                   Controller.query_sort := Some "best_seller" |}
                {| Controller.params_tcin := None; Controller.params_gtin := None;
                   Controller.query_q := Some (JStr "desk lamp   ");
                   Controller.query_page := Some "3";
                   Controller.query_sort := Some "best_seller" |}
                "  " " " "" "   " "desk lamp" Sample.fresh
                eq_refl eq_refl eq_refl eq_refl eq_refl eq_refl eq_refl eq_refl)
    as (Hevents & Hstate & Hresponse & Hcall).
  assert (Js.trim "desk lamp" <> "") as Hne by (vm_compute; discriminate).
  specialize (Hresponse Hne).
  specialize (Hcall 3 Hne eq_refl ltac:(lia)) as [Hcall1 Hcall2].
  repeat split; assumption.
Defined.

(** ** Bulk operations *)

Section BulkProperties.

Variable numberKey : string -> option string.

Local Abbreviation recordItem := (Api.recordItem numberKey).

Lemma recordItem_lookup (m : gmap string ApiResponse) (item : Api.Item) (key : string)
    (value : ApiResponse) :
  recordItem m item !! key = Some value ->
  m !! key = Some value \/
  (Api.item_value item = Some value /\ storedUnder numberKey (Api.item_tcin item) key).
Proof.
  unfold Api.recordItem, storedUnder.
  destruct (Api.item_value item) as [stock |]; [| auto].
  destruct (numberKey (Api.item_tcin item)) as [canonical |] eqn:Hnumber.
  - rewrite lookup_insert. case_decide as Hkey.
    + subst. intros [= <-]. auto.
    + rewrite insert_insert_eq, lookup_insert.
      case_decide; [subst; intros [= <-] | intros Hm]; auto.
  - rewrite insert_insert_eq, lookup_insert.
    case_decide; [subst; intros [= <-] | intros Hm]; auto.
Qed.

Lemma recordItem_keeps (m : gmap string ApiResponse) (item : Api.Item) (key : string) :
  is_Some (m !! key) -> is_Some (recordItem m item !! key).
Proof.
  intros Hm. unfold Api.recordItem.
  destruct (Api.item_value item) as [stock |]; [| exact Hm].
  destruct (numberKey (Api.item_tcin item)) as [canonical |];
    repeat (rewrite lookup_insert; case_decide; [eauto |]); exact Hm.
Qed.

Lemma recordItem_adds (m : gmap string ApiResponse) (item : Api.Item) (key : string) :
  is_Some (Api.item_value item) -> storedUnder numberKey (Api.item_tcin item) key ->
  is_Some (recordItem m item !! key).
Proof.
  intros [stock Hstock] Hkey. unfold Api.recordItem. rewrite Hstock.
  destruct Hkey as [-> | Hnumber].
  - destruct (numberKey (Api.item_tcin item)) as [canonical |];
      repeat (rewrite lookup_insert; case_decide; [eauto |]); congruence.
  - rewrite Hnumber, lookup_insert_eq. eauto.
Qed.

Lemma recordItems_lookup (items : list Api.Item) (m : gmap string ApiResponse)
    (key : string) (value : ApiResponse) :
  fold_left recordItem items m !! key = Some value ->
  m !! key = Some value \/
  exists item, In item items /\ Api.item_value item = Some value /\
               storedUnder numberKey (Api.item_tcin item) key.
Proof.
  revert m. induction items as [| item items IH]; intros m; cbn [fold_left]; [auto |].
  intros Hfold. apply IH in Hfold as [Hhere | (item' & Hin & Hvalue & Hkey)].
  - apply recordItem_lookup in Hhere as [Hm | [Hvalue Hkey]]; [auto |].
    right. exists item. cbn. auto.
  - right. exists item'. cbn. auto.
Qed.

Lemma recordItems_present (items : list Api.Item) (m : gmap string ApiResponse)
    (key : string) :
  is_Some (m !! key) \/
  (exists item, In item items /\ is_Some (Api.item_value item) /\
                storedUnder numberKey (Api.item_tcin item) key) ->
  is_Some (fold_left recordItem items m !! key).
Proof.
  revert m. induction items as [| item items IH]; intros m; cbn [fold_left].
  - intros [Hm | (item & [] & _)]. exact Hm.
  - intros [Hm | (item' & [<- | Hin] & Hvalue & Hkey)]; apply IH.
    + left. apply recordItem_keeps, Hm.
    + left. apply recordItem_adds; assumption.
    + right. eauto.
Qed.

(** The element of [results] a callback resolves to. *)
Lemma settled_settle (tcin : string) (op : Eff ApiError ApiResponse) (st : State) :
  Api.item_tcin (Api.settled (Api.settle tcin op st)) = tcin /\
  Api.item_value (Api.settled (Api.settle tcin op st)) = returned (op st).
Proof.
  unfold Api.settle, Api.settled, returned, tryCatch, mbind, Eff_bind, bind, mret,
    Eff_ret, ret.
  destruct (op st) as [[[value | e] st'] events]; cbn; auto.
Qed.

(** The loop shared by the two bulk operations. *)
Lemma bulk_isolates (op : string -> Eff ApiError ApiResponse) (tcins : list string)
    (bad : string) (st : State) :
  returned (op bad st) = None ->
  (forall tcin, In tcin tcins -> tcin <> bad -> is_Some (returned (op tcin st))) ->
  isolates numberKey (fun tcin => op tcin st) tcins bad
    ((results ← Api.promiseAll (E := ApiError) (map (fun tcin => Api.settle tcin (op tcin)) tcins);
      mret (fold_left recordItem results ∅)) st).
Proof.
  intros Hbad Hothers.
  unfold Api.promiseAll, mbind, Eff_bind, bind, mret, Eff_ret, ret. cbn [fst snd].
  rewrite !map_map.
  set (items := map (fun tcin => Api.settled (Api.settle tcin (op tcin) st)) tcins).
  assert (forall key value, fold_left recordItem items ∅ !! key = Some value ->
            exists tcin, In tcin tcins /\ returned (op tcin st) = Some value /\
                         storedUnder numberKey tcin key) as Hsound.
  { intros key value Hm.
    apply recordItems_lookup in Hm as [Hm | (item & Hin & Hvalue & Hkey)];
      [rewrite lookup_empty in Hm; discriminate |].
    apply in_map_iff in Hin as (tcin & <- & Hin).
    destruct (settled_settle tcin (op tcin) st) as [Htcin Hitem].
    rewrite Htcin in Hkey. rewrite Hitem in Hvalue. eauto. }
  assert (forall key, is_Some (fold_left recordItem items ∅ !! key) <->
            exists tcin, In tcin tcins /\ tcin <> bad /\ storedUnder numberKey tcin key)
    as Hkeys.
  { intros key. split.
    - intros [value Hm]. apply Hsound in Hm as (tcin & Hin & Hvalue & Hkey).
      exists tcin. repeat split; [assumption | | assumption].
      intros ->. congruence.
    - intros (tcin & Hin & Hne & Hkey). apply recordItems_present. right.
      exists (Api.settled (Api.settle tcin (op tcin) st)).
      destruct (settled_settle tcin (op tcin) st) as [Htcin Hitem].
      rewrite Htcin, Hitem. repeat split; [| auto | assumption].
      apply in_map_iff. eauto. }
  exists (fold_left recordItem items ∅). repeat split; try assumption.
  - apply Hkeys.
  - apply Hkeys.
  - intros Hpresent. apply Hkeys in Hpresent as (tcin & Hin & Hne & [Heq | Hnumber]);
      [congruence | eauto].
  - intros (tcin & Hin & Hne & Hnumber). apply Hkeys. exists tcin.
    unfold storedUnder. auto.
Qed.

End BulkProperties.

(** C4, as stated, fails: with the TCINs [012345678] and [12345678], both
    accepted by [isValidTcin], the first of which the upstream knows and the
    second of which it answers with 404, [getBulkProducts] returns a mapping
    with two keys for one success, and the failed identifier [12345678] is
    one of them: it is the number key of the successful [012345678]. *)
Lemma getBulkProducts_failed_identifier_present :
  let upstream := Sample.catalogueWithout "12345678" in
  let single tcin :=
    Api.getProductByTcin (keys := Sample.keys) Sample.env upstream tcin None Sample.fresh in
  let run :=
    Api.getBulkProducts (keys := Sample.keys) Sample.env upstream Sample.decimalNumberKey
      ["012345678"; "12345678"] None Sample.fresh in
  let found := Sample.productResponse "item 012345678" in
  Api.isValidTcin "012345678" = true /\ Api.isValidTcin "12345678" = true /\
  returned (single "012345678") = Some found /\
  returned (single "12345678") = None /\
  Sample.decimalNumberKey "012345678" = Some "12345678" /\
  fst (fst run) = Returned (<["12345678" := found]> (<["012345678" := found]> ∅)) /\
  (<["12345678" := found]> (<["012345678" := found]> (∅ : gmap string ApiResponse)))
    !! "12345678" = Some found.
Proof.
  cbv zeta. repeat (split; [vm_compute; reflexivity |]). vm_compute. reflexivity.
Qed.

(** C4, amended: for every bulk request ([getBulkProducts] or
    [checkBulkStoreStock]) over a list of identifiers in which the single
    operation fails for one identifier and succeeds for the others, the
    operation does not throw; the keys of the returned mapping are exactly
    the successful identifiers together with, for each of them that reads
    as a number, the string of that number; every value is the payload of a
    successful identifier stored under that key; and the failed identifier
    is absent unless it is the number string of a successful one. *)
Theorem bulk_isolates_failure `{keys : CacheKeys} (env : Env) (upstream : Upstream)
    (numberKey : string -> option string)
    (tcins tcins' : list string) (bad bad' zipCode : string) (storeId : option string)
    (options options' : option ApiRequestOptions) (st st' : State) :
  let oneProduct tcin := Api.getProductByTcin env upstream tcin options st in
  let oneStock tcin := Api.checkStoreStock env upstream tcin zipCode storeId options' st' in
  returned (oneProduct bad) = None ->
  (forall tcin, In tcin tcins -> tcin <> bad -> is_Some (returned (oneProduct tcin))) ->
  returned (oneStock bad') = None ->
  (forall tcin, In tcin tcins' -> tcin <> bad' -> is_Some (returned (oneStock tcin))) ->
  isolates numberKey oneProduct tcins bad
    (Api.getBulkProducts env upstream numberKey tcins options st) /\
  isolates numberKey oneStock tcins' bad'
    (Api.checkBulkStoreStock env upstream numberKey tcins' zipCode storeId options' st').
Proof.
  cbv zeta. intros Hbad Hothers Hbad' Hothers'. split.
  - apply (bulk_isolates numberKey (fun tcin => Api.getProductByTcin env upstream tcin options));
      assumption.
  - apply (bulk_isolates numberKey
             (fun tcin => Api.checkStoreStock env upstream tcin zipCode storeId options'));
      assumption.
Qed.

Lemma bulk_isolates_failure_witness :
  isolates Sample.decimalNumberKey
    (fun tcin => Api.getProductByTcin (keys := Sample.keys) Sample.env Sample.catalogue
                   tcin None Sample.fresh)
    ["78025470"; "99999999"; "0012345678"] "99999999"
    (Api.getBulkProducts (keys := Sample.keys) Sample.env Sample.catalogue
       Sample.decimalNumberKey ["78025470"; "99999999"; "0012345678"] None Sample.fresh) /\
  isolates Sample.decimalNumberKey
    (fun tcin => Api.checkStoreStock (keys := Sample.keys) Sample.env Sample.catalogue
                   tcin "04457" (Some "1234") None Sample.fresh)
    ["99999999"; "78025470"] "99999999"
    (Api.checkBulkStoreStock (keys := Sample.keys) Sample.env Sample.catalogue
       Sample.decimalNumberKey ["99999999"; "78025470"] "04457" (Some "1234") None
       Sample.fresh).
Proof.
  apply (bulk_isolates_failure (keys := Sample.keys) Sample.env Sample.catalogue
           Sample.decimalNumberKey
           ["78025470"; "99999999"; "0012345678"] ["99999999"; "78025470"]
           "99999999" "99999999" "04457" (Some "1234") None None
           Sample.fresh Sample.fresh).
  - vm_compute. reflexivity.
  - intros tcin [<- | [<- | [<- | []]]] Hne;
      first [contradiction Hne; reflexivity | vm_compute; eauto].
  - vm_compute. reflexivity.
  - intros tcin [<- | [<- | []]] Hne;
      first [contradiction Hne; reflexivity | vm_compute; eauto].
Defined.

(* ====================================================================== *)
(** * Further properties of the client and the controllers                 *)
(* ====================================================================== *)

(** ** The error classifier *)

(** The codes of the taxonomy. *)
Definition taxonomy : list ErrorCode :=
  [CodeName "PRODUCT_NOT_FOUND"; CodeName "RATE_LIMIT_EXCEEDED"; CodeName "UNAUTHORIZED";
   CodeName "NETWORK_ERROR"; CodeName "UNKNOWN_ERROR"].

(** X1: whatever is thrown, [handleApiError] keeps the context it is given,
    and the code of its result is one of the five names of the taxonomy or
    the numeric status of the upstream response, which is then none of 0,
    404, 429, 401 and 403. *)
Theorem handleApiError_codes (error : Failure) (ctx : option string) :
  context (err_details (handleApiError error ctx)) = ctx /\
  (In (err_code (handleApiError error ctx)) taxonomy \/
   exists axiosError r,
     error = AxiosFailure axiosError /\ axios_response axiosError = Some r /\
     err_code (handleApiError error ctx) = CodeStatus (resp_status r) /\
     ~ In (resp_status r) [0; 404; 429; 401; 403]).
Proof.
  destruct error as [axiosError | description]; [| split; [reflexivity | left; cbn; auto 6]].
  unfold handleApiError.
  destruct (axios_response axiosError) as [r |] eqn:Hr; cbn.
  - destruct (resp_status r =? 404) eqn:H404; cbn; [split; [reflexivity | left; cbn; auto] |].
    destruct (isCode _ "PRODUCT_NOT_FOUND"); cbn; [split; [reflexivity | left; cbn; auto] |].
    destruct (resp_status r =? 429) eqn:H429; cbn; [split; [reflexivity | left; cbn; auto] |].
    destruct (isCode _ "RATE_LIMIT_EXCEEDED"); cbn; [split; [reflexivity | left; cbn; auto] |].
    destruct (resp_status r =? 401) eqn:H401; cbn; [split; [reflexivity | left; cbn; auto] |].
    destruct (resp_status r =? 403) eqn:H403; cbn; [split; [reflexivity | left; cbn; auto] |].
    destruct (resp_status r =? 0) eqn:H0; cbn; [split; [reflexivity | left; cbn; auto 6] |].
    split; [reflexivity |]. right. exists axiosError, r.
    repeat split; try assumption; try reflexivity.
    apply Z.eqb_neq in H404, H429, H401, H403, H0. cbn. intuition lia.
  - split; [reflexivity | left; cbn; auto 6].
Qed.

(** X2: an upstream 429 whose body does not carry the code
    [PRODUCT_NOT_FOUND] is classified as [RATE_LIMIT_EXCEEDED]; the error
    carries the context and the value of the [retry-after] header when the
    response has one, and no status. *)
Theorem handleApiError_rate_limit (axiosError : AxiosError) (r : AxiosResponse)
    (ctx : option string) :
  axios_response axiosError = Some r ->
  resp_status r = 429 ->
  isCode (errorCodeOf (resp_data r)) "PRODUCT_NOT_FOUND" = false ->
  handleApiError (AxiosFailure axiosError) ctx =
    {| err_message := "Rate limit exceeded";
       err_code := CodeName "RATE_LIMIT_EXCEEDED";
       err_details := {| context := ctx; status := None;
                         retryAfter := lookupHeader "retry-after" (resp_headers r);
                         originalError := None |} |}.
Proof.
  intros Hr H429 Hbody. unfold handleApiError. rewrite Hr. cbn.
  rewrite H429, Hbody. reflexivity.
Qed.

Lemma handleApiError_rate_limit_witness :
  retryAfter
    (err_details
       (handleApiError
          (AxiosFailure
             {| axios_message := "Request failed with status code 429";
                axios_response :=
                  Some {| resp_status := 429;
                          resp_data := Some (JObj [("error", JObj [("code", JStr "BUSY")])]);
                          resp_headers := [("content-type", "application/json");
                                           ("retry-after", "30")] |} |})
          (Some "Search: lamp"))) = Some "30".
Proof.
  rewrite (handleApiError_rate_limit
             {| axios_message := "Request failed with status code 429";
                axios_response :=
                  Some {| resp_status := 429;
                          resp_data := Some (JObj [("error", JObj [("code", JStr "BUSY")])]);
                          resp_headers := [("content-type", "application/json");
                                           ("retry-after", "30")] |} |}
             {| resp_status := 429;
                resp_data := Some (JObj [("error", JObj [("code", JStr "BUSY")])]);
                resp_headers := [("content-type", "application/json");
                                 ("retry-after", "30")] |}
             (Some "Search: lamp") eq_refl eq_refl eq_refl).
  reflexivity.
Defined.

(** ** The cached operations *)

(** The upstream requests of an effect log, in order. *)
Definition requests (events : list Event) : list (Params * Z) :=
  flat_map (fun ev => match ev with HttpGet params tmo => [(params, tmo)] | _ => [] end)
    events.

Definition otherCache (c : CacheName) : CacheName :=
  match c with
  | ProductCache => StockCache
  | StockCache => ProductCache
  end.

(** Between [st] and [st'], nothing changed in the caches but, at most, the
    entry of cache [c] under [key]. *)
Definition touchesOnly (c : CacheName) (key : string) (st st' : State) : Prop :=
  cacheOf (otherCache c) st' = cacheOf (otherCache c) st /\
  cache_ttl (cacheOf c st') = cache_ttl (cacheOf c st) /\
  forall other, other <> key ->
    cache_entries (cacheOf c st') !! other = cache_entries (cacheOf c st) !! other.

Section CachedOperations.

Context (upstream : Upstream).
Variables (c : CacheName) (key : string) (params : Params) (ctx : string)
          (options : option ApiRequestOptions) (st : State).

Lemma fetchThroughCache_requests :
  requests (snd (fetchThroughCache upstream c key params ctx options st)) =
  match lookupFinds options c key st with
  | Some _ => []
  | None => [(params, timeoutOf options)]
  end.
Proof.
  rewrite fetchThroughCache_run. unfold lookupLog.
  destruct (lookupFinds options c key st); [| cbv zeta;
    destruct (outcome (upstream params (timeoutOf options)))];
    destruct (skipCacheOf options); reflexivity.
Qed.

Lemma touchesOnly_advance (dt : Z) : touchesOnly c key st (advance dt st).
Proof. unfold touchesOnly. destruct c; cbn; auto. Qed.

Lemma touchesOnly_stored (data : ApiResponse) (dt : Z) :
  touchesOnly c key st (stored c key data dt st).
Proof.
  unfold touchesOnly, stored. destruct c; cbn; repeat split; try reflexivity;
    intros other Hother; apply lookup_insert_ne; congruence.
Qed.

Lemma touchesOnly_refl : touchesOnly c key st st.
Proof. unfold touchesOnly. auto. Qed.

Lemma fetchThroughCache_touchesOnly :
  touchesOnly c key st (snd (fst (fetchThroughCache upstream c key params ctx options st))).
Proof.
  rewrite fetchThroughCache_run.
  destruct (lookupFinds options c key st); [apply touchesOnly_refl |].
  cbv zeta. destruct (outcome (upstream params (timeoutOf options))); cbn [fst snd].
  - apply touchesOnly_stored.
  - apply touchesOnly_advance.
Qed.

Lemma fetchThroughCache_thrown (e : ApiError) (st' : State) (events : list Event) :
  fetchThroughCache upstream c key params ctx options st = (Thrown e, st', events) ->
  productCache st' = productCache st /\ stockCache st' = stockCache st /\
  context (err_details e) = Some ctx /\
  requests events = [(params, timeoutOf options)].
Proof.
  intros Hrun. pose proof fetchThroughCache_requests as Hrequests.
  rewrite Hrun in Hrequests. cbn [snd] in Hrequests.
  rewrite fetchThroughCache_run in Hrun.
  destruct (lookupFinds options c key st); [discriminate |].
  cbv zeta in Hrun.
  destruct (outcome (upstream params (timeoutOf options))) as [data | failure];
    [discriminate |].
  injection Hrun as <- <- _. repeat split; try assumption.
  apply handleApiError_codes.
Qed.

End CachedOperations.

(** X3: each of the five single-item operations sends at most one upstream
    request: none when the cache is consulted and holds a live entry under
    the key of the operation, and otherwise exactly one, with the API key,
    the [type] of the operation and its own parameters, and with the
    caller's timeout or 10 seconds. *)
Theorem client_requests `{keys : CacheKeys} (env : Env) (upstream : Upstream)
    (options : option ApiRequestOptions) (st : State) :
  let sent (c : CacheName) (key : string) (params : Params) :=
    match lookupFinds options c key st with
    | Some _ => []
    | None => [(params, Js.orNumber (options ≫= timeout) 10000)]
    end in
  (forall tcin zipCode storeId,
     requests (snd (Api.checkStoreStock env upstream tcin zipCode storeId options st)) =
     sent StockCache (generateProductStockCacheKey zipCode tcin)
       [("api_key", API_KEY env); ("type", "store_stock"); ("tcin", tcin);
        ("store_stock_zipcode", zipCode)]) /\
  (forall tcin,
     requests (snd (Api.getProductByTcin env upstream tcin options st)) =
     sent ProductCache (generateProductCacheKey tcin)
       [("api_key", API_KEY env); ("type", "product"); ("tcin", tcin)]) /\
  (forall tcin,
     requests (snd (Api.getFullProductByTcin env upstream tcin options st)) =
     sent ProductCache ("full_product_" +:+ tcin)
       [("api_key", API_KEY env); ("type", "product"); ("tcin", tcin)]) /\
  (forall gtin,
     requests (snd (Api.getProductByGtin env upstream gtin options st)) =
     sent ProductCache ("product_gtin_" +:+ gtin)
       [("api_key", API_KEY env); ("type", "product"); ("gtin", gtin)]) /\
  (forall searchTerm,
     requests (snd (Api.searchProducts env upstream searchTerm options st)) =
     sent ProductCache
       (Api.searchCacheKey searchTerm (Js.orNumber (options ≫= page) 1) (options ≫= sortBy))
       (Api.searchParams (API_KEY env) searchTerm (Js.orNumber (options ≫= page) 1)
          (options ≫= sortBy))).
Proof.
  cbv zeta. split; [| split; [| split; [| split]]]; intros.
  - rewrite checkStoreStock_shape. apply fetchThroughCache_requests.
  - rewrite getProductByTcin_shape. apply fetchThroughCache_requests.
  - rewrite getFullProductByTcin_shape. apply fetchThroughCache_requests.
  - rewrite getProductByGtin_shape. apply fetchThroughCache_requests.
  - rewrite searchProducts_shape. apply fetchThroughCache_requests.
Qed.

(** X4: a single-item operation that throws has sent one request and has
    cached nothing: both caches are as they were before the call, and the
    error names the identifier or the search term the call was about. *)
Theorem failed_call_caches_nothing `{keys : CacheKeys} (env : Env) (upstream : Upstream)
    (options : option ApiRequestOptions) (st st' : State) (e : ApiError)
    (events : list Event) :
  let unchanged (what : string) :=
    productCache st' = productCache st /\ stockCache st' = stockCache st /\
    context (err_details e) = Some what /\ length (requests events) = 1%nat in
  (forall tcin zipCode storeId,
     Api.checkStoreStock env upstream tcin zipCode storeId options st = (Thrown e, st', events) ->
     unchanged ("TCIN " +:+ tcin)) /\
  (forall tcin,
     Api.getProductByTcin env upstream tcin options st = (Thrown e, st', events) ->
     unchanged ("TCIN " +:+ tcin)) /\
  (forall tcin,
     Api.getFullProductByTcin env upstream tcin options st = (Thrown e, st', events) ->
     unchanged ("TCIN " +:+ tcin)) /\
  (forall gtin,
     Api.getProductByGtin env upstream gtin options st = (Thrown e, st', events) ->
     unchanged ("GTIN " +:+ gtin)) /\
  (forall searchTerm,
     Api.searchProducts env upstream searchTerm options st = (Thrown e, st', events) ->
     unchanged ("Search: " +:+ searchTerm)).
Proof.
  cbv zeta.
  assert (forall c key params ctx,
            fetchThroughCache upstream c key params ctx options st = (Thrown e, st', events) ->
            productCache st' = productCache st /\ stockCache st' = stockCache st /\
            context (err_details e) = Some ctx /\ length (requests events) = 1%nat) as Hall.
  { intros c key params ctx Hrun.
    apply fetchThroughCache_thrown in Hrun as (Hp & Hs & Hctx & Hreq).
    rewrite Hreq. auto. }
  split; [| split; [| split; [| split]]]; intros;
    match goal with
    | Hrun : _ = (Thrown _, _, _) |- _ =>
        first [rewrite checkStoreStock_shape in Hrun
              | rewrite getProductByTcin_shape in Hrun
              | rewrite getFullProductByTcin_shape in Hrun
              | rewrite getProductByGtin_shape in Hrun
              | rewrite searchProducts_shape in Hrun];
        exact (Hall _ _ _ _ Hrun)
    end.
Qed.

Lemma failed_call_caches_nothing_witness :
  let run := Api.getProductByGtin Sample.env Sample.notFoundUpstream "012345678905" None
               Sample.fresh in
  productCache (snd (fst run)) = productCache Sample.fresh /\
  stockCache (snd (fst run)) = stockCache Sample.fresh /\
  context (err_details (handleApiError (Sample.httpError 404) (Some "GTIN 012345678905"))) =
    Some "GTIN 012345678905" /\
  length (requests (snd run)) = 1%nat.
Proof.
  cbv zeta.
  destruct (failed_call_caches_nothing (keys := Sample.keys) Sample.env
              Sample.notFoundUpstream None Sample.fresh
              (snd (fst (Api.getProductByGtin Sample.env Sample.notFoundUpstream
                           "012345678905" None Sample.fresh)))
              (handleApiError (Sample.httpError 404) (Some "GTIN 012345678905"))
              (snd (Api.getProductByGtin Sample.env Sample.notFoundUpstream
                      "012345678905" None Sample.fresh)))
    as (_ & _ & _ & Hgtin & _).
  apply (Hgtin "012345678905"). vm_compute. reflexivity.
Defined.

(** X5: a single-item operation changes nothing in the caches but, at most,
    the entry under its own key in its own cache: [checkStoreStock] leaves
    the product cache alone, the four product and search operations leave
    the stock cache alone, and no other entry is written, dropped or
    refreshed. *)
Theorem client_touches_only_its_entry `{keys : CacheKeys} (env : Env) (upstream : Upstream)
    (options : option ApiRequestOptions) (st : State) :
  (forall tcin zipCode storeId,
     touchesOnly StockCache (generateProductStockCacheKey zipCode tcin) st
       (snd (fst (Api.checkStoreStock env upstream tcin zipCode storeId options st)))) /\
  (forall tcin,
     touchesOnly ProductCache (generateProductCacheKey tcin) st
       (snd (fst (Api.getProductByTcin env upstream tcin options st)))) /\
  (forall tcin,
     touchesOnly ProductCache ("full_product_" +:+ tcin) st
       (snd (fst (Api.getFullProductByTcin env upstream tcin options st)))) /\
  (forall gtin,
     touchesOnly ProductCache ("product_gtin_" +:+ gtin) st
       (snd (fst (Api.getProductByGtin env upstream gtin options st)))) /\
  (forall searchTerm,
     touchesOnly ProductCache
       (Api.searchCacheKey searchTerm (Js.orNumber (options ≫= page) 1) (options ≫= sortBy))
       st (snd (fst (Api.searchProducts env upstream searchTerm options st)))).
Proof.
  split; [| split; [| split; [| split]]]; intros.
  all: first [rewrite checkStoreStock_shape | rewrite getProductByTcin_shape
             | rewrite getFullProductByTcin_shape | rewrite getProductByGtin_shape
             | rewrite searchProducts_shape];
    apply fetchThroughCache_touchesOnly.
Qed.

(** X6: a [checkStoreStock] forced with [skipCache] does not read the
    cache; when the upstream answers, the answer replaces whatever was
    cached, and for as long as the time to live of the stock cache lasts, a
    later call without [skipCache] returns that answer from the cache
    without a request, whatever store identifier either call was given. *)
Theorem checkStoreStock_refresh `{keys : CacheKeys} (env : Env)
    (upstream upstream' : Upstream) (tcin zipCode : string)
    (storeId storeId' : option string) (options options' : option ApiRequestOptions)
    (st : State) (data : ApiResponse) (dt : Z) :
  let params := [("api_key", API_KEY env); ("type", "store_stock"); ("tcin", tcin);
                 ("store_stock_zipcode", zipCode)] in
  let key := generateProductStockCacheKey zipCode tcin in
  skipCacheOf options = true ->
  skipCacheOf options' = false ->
  outcome (upstream params (timeoutOf options)) = inl data ->
  dt <= cache_ttl (stockCache st) ->
  exists st1,
    Api.checkStoreStock env upstream tcin zipCode storeId options st =
      (Returned data, st1,
       [HttpGet params (timeoutOf options); CacheWrite StockCache key data]) /\
    Api.checkStoreStock env upstream' tcin zipCode storeId' options' (advance dt st1) =
      (Returned data, advance dt st1, [CacheRead StockCache key]).
Proof.
  cbv zeta. intros Hskip Hskip' Hreply Hdt.
  rewrite !checkStoreStock_shape. rewrite fetchThroughCache_run.
  unfold lookupFinds, lookupLog. rewrite Hskip. cbv zeta. rewrite Hreply.
  eexists. split; [reflexivity |].
  set (el := elapsed (upstream _ (timeoutOf options))).
  apply (fetchThroughCache_hit upstream' StockCache _ _ _ options' _
           {| entry_value := data; entry_stored := clock st + el;
              entry_ttl := cache_ttl (cacheOf StockCache st) |} Hskip').
  - rewrite (cacheOf_advance StockCache). apply stored_entry.
  - unfold entryLive. cbn. apply Z.leb_le. lia.
Qed.

Lemma checkStoreStock_refresh_witness :
  let forced := Some {| skipCache := Some true; timeout := Some 2500; page := None;
                        sortBy := None |} in
  exists st1,
    Api.checkStoreStock (keys := Sample.keys) Sample.env Sample.catalogue "78025470" "04457"
      (Some "1234") forced Sample.fresh =
      (Returned (Sample.productResponse "item 78025470"), st1,
       [HttpGet [("api_key", "k3y"); ("type", "store_stock"); ("tcin", "78025470");
                 ("store_stock_zipcode", "04457")] 2500;
        CacheWrite StockCache "stock_04457_78025470"
          (Sample.productResponse "item 78025470")]) /\
    Api.checkStoreStock (keys := Sample.keys) Sample.env Sample.notFoundUpstream "78025470"
      "04457" None None (advance 60000 st1) =
      (Returned (Sample.productResponse "item 78025470"), advance 60000 st1,
       [CacheRead StockCache "stock_04457_78025470"]).
Proof.
  cbv zeta.
  apply (checkStoreStock_refresh (keys := Sample.keys) Sample.env Sample.catalogue
           Sample.notFoundUpstream "78025470" "04457" (Some "1234") None
           (Some {| skipCache := Some true; timeout := Some 2500; page := None;
                    sortBy := None |})
           None Sample.fresh (Sample.productResponse "item 78025470") 60000);
    first [reflexivity | cbn; lia].
Defined.

(** ** Searches *)

(** X7: [searchProducts] treats a page that is absent or 0 as page 1 and a
    sort order that is absent or empty as the default: these calls read and
    write the same cache key, send the same query parameters (with [page=1]
    and without [sort_by]) and have the same outcome. *)
Theorem searchProducts_defaults (env : Env) (upstream : Upstream) (searchTerm : string)
    (skip : option bool) (tmo : option Z) (st : State) :
  let search pg sort :=
    Api.searchProducts env upstream searchTerm
      (Some {| skipCache := skip; timeout := tmo; page := pg; sortBy := sort |}) st in
  search None None = search (Some 1) None /\
  search (Some 0) None = search (Some 1) None /\
  search (Some 1) (Some "") = search (Some 1) None /\
  search (Some 0) (Some "") = search (Some 1) None /\
  Api.searchProducts env upstream searchTerm None st =
    Api.searchProducts env upstream searchTerm
      (Some {| skipCache := None; timeout := None; page := Some 1; sortBy := None |}) st /\
  Forall (fun request =>
            fst request = [("api_key", API_KEY env); ("type", "search");
                           ("search_term", searchTerm); ("page", "1")])
         (requests (snd (search None None))).
Proof.
  cbv zeta. repeat (split; [reflexivity |]).
  rewrite searchProducts_shape, fetchThroughCache_requests.
  destruct (lookupFinds _ _ _ st); repeat constructor.
Qed.

(** ** The health check *)

(** X8: [checkApiHealth] never throws and never reads the cache: it always
    sends one product request for the TCIN 78025470 with the default
    timeout, and reports [true] exactly when the upstream answers it, in
    which case the answer is written to the product cache; any failure is
    reported as [false] and leaves the caches as they were. *)
Theorem checkApiHealth_run `{keys : CacheKeys} (env : Env) (upstream : Upstream)
    (st : State) :
  let params := [("api_key", API_KEY env); ("type", "product"); ("tcin", "78025470")] in
  let reply := upstream params DEFAULT_TIMEOUT in
  Api.checkApiHealth env upstream st =
  match outcome reply with
  | inl data =>
      (Returned true,
       stored ProductCache (generateProductCacheKey "78025470") data (elapsed reply) st,
       [HttpGet params DEFAULT_TIMEOUT;
        CacheWrite ProductCache (generateProductCacheKey "78025470") data])
  | inr _ => (Returned false, advance (elapsed reply) st, [HttpGet params DEFAULT_TIMEOUT])
  end.
Proof.
  cbv zeta. unfold Api.checkApiHealth.
  unfold tryCatch at 1. unfold mbind, Eff_bind, bind.
  rewrite getProductByTcin_shape, fetchThroughCache_run.
  unfold lookupFinds, lookupLog. cbn [skipCacheOf skipCache default].
  cbv zeta. change (timeoutOf _) with DEFAULT_TIMEOUT.
  destruct (outcome (upstream _ DEFAULT_TIMEOUT)); reflexivity.
Qed.

(** ** Cache keys *)

(** X9: the cache keys of full product lookups, of barcode lookups and of
    searches are pairwise different, whatever the identifiers, the search
    term, the page and the sort order: an entry cached by one of these
    operations is never served by another. *)
Theorem inline_cache_keys_disjoint (tcin gtin searchTerm : string) (page : Z)
    (sort : option string) :
  "full_product_" +:+ tcin <> "product_gtin_" +:+ gtin /\
  "full_product_" +:+ tcin <> Api.searchCacheKey searchTerm page sort /\
  "product_gtin_" +:+ gtin <> Api.searchCacheKey searchTerm page sort.
Proof.
  unfold Api.searchCacheKey. rewrite !append_cons. repeat split; discriminate.
Qed.

(** ** The controllers *)

(** Whether the [tcin] parameter of a request passes validation. *)
Definition validTcinParam (req : Controller.Request) : bool :=
  match Controller.params_tcin req with
  | Some tcin => Api.isValidTcin tcin
  | None => false
  end.

(** Whether the [gtin] parameter of a request passes validation. *)
Definition validGtinParam (req : Controller.Request) : bool :=
  match Controller.params_gtin req with
  | Some gtin => Api.digitsBetween 8 14 gtin
  | None => false
  end.

(** Whether the query of a search request passes validation: [q] is a
    string that is not blank, and [page] is absent, empty, or starts (after
    white space and a sign) with the digits of a number that is at least 1. *)
Definition validSearchQuery (req : Controller.Request) : bool :=
  match Controller.query_q req with
  | Some (JStr term) =>
      negb (String.eqb (Js.trim term) "") &&
      negb (Controller.badPage (Controller.parsePage (Controller.query_page req)))
  | _ => false
  end.

(** A handler run that stopped at validation: status 400 with the code
    [VALIDATION_ERROR] and the name of the offending field, the state
    untouched, and no effect at all. *)
Definition rejected (field : string) (st : State)
    (run : Controller.Response * State * list Event) : Prop :=
  Controller.res_status (fst (fst run)) = 400 /\
  bodyErrorCode (Controller.res_body (fst (fst run))) = Some "VALIDATION_ERROR" /\
  (exists fields, Controller.res_body (fst (fst run)) = JObj [("error", JObj fields)] /\
                  getField "field" fields = Some (JStr field)) /\
  snd (fst run) = st /\ snd run = [].

Section ControllerProperties.

Import Controller.

Context (env : Env) (upstream : Upstream).

Lemma productResponse_status (what ident : string) (r : Result ApiError ApiResponse) :
  In (res_status (productResponse env what ident r)) [200; 404; 500].
Proof.
  destruct r as [payload | e]; cbn; [destruct (product payload); cbn |]; auto.
Qed.

Lemma searchResponse_status (page : Z) (r : Result ApiError ApiResponse) :
  In (res_status (searchResponse env page r)) [200; 500].
Proof.
  destruct r as [payload | e]; cbn; [| auto].
  destruct (search_results payload) as [[| result results] |]; cbn; auto.
Qed.

Lemma getProductByTcin_rejected (req : Request) (st : State) :
  validTcinParam req = false -> rejected "tcin" st (getProductByTcin env upstream req st).
Proof.
  unfold validTcinParam, getProductByTcin. intros Hinvalid.
  destruct (params_tcin req) as [tcin |]; cbn [default]; unfold id.
  - rewrite Hinvalid, orb_true_r. repeat split. eexists. split; reflexivity.
  - repeat split. eexists. split; reflexivity.
Qed.

Lemma getProductByUpc_rejected (req : Request) (st : State) :
  validGtinParam req = false -> rejected "gtin" st (getProductByUpc env upstream req st).
Proof.
  unfold validGtinParam, getProductByUpc. intros Hinvalid.
  destruct (params_gtin req) as [gtin |]; cbn [default]; unfold id.
  - rewrite Hinvalid, orb_true_r. repeat split. eexists. split; reflexivity.
  - repeat split. eexists. split; reflexivity.
Qed.

Lemma eqb_empty (s : string) : String.eqb s "" = true <-> s = "".
Proof. apply String.eqb_eq. Qed.

Lemma searchProductsHandler_rejected (req : Request) (st : State) :
  validSearchQuery req = false ->
  rejected "q" st (searchProductsHandler env upstream req st) \/
  rejected "page" st (searchProductsHandler env upstream req st).
Proof.
  unfold validSearchQuery. intros Hinvalid.
  destruct (query_q req) as [[| b | n | term | items | fields] |] eqn:Hq;
    try (left; unfold searchProductsHandler; rewrite Hq; cbn;
         rewrite ?orb_true_r; repeat split; eexists; split; reflexivity).
  destruct (String.eqb (Js.trim term) "") eqn:Hblank.
  - left. apply String.eqb_eq in Hblank.
    rewrite searchProductsHandler_blank by (rewrite Hq; exact Hblank).
    repeat split. eexists. split; reflexivity.
  - right. apply String.eqb_neq in Hblank.
    rewrite (searchProductsHandler_nonblank env upstream req st term Hq Hblank).
    cbn [negb andb] in Hinvalid. apply negb_false_iff in Hinvalid.
    unfold badPage in Hinvalid.
    destruct (parsePage (query_page req)) as [page |].
    + rewrite Hinvalid. repeat split. eexists. split; reflexivity.
    + repeat split. eexists. split; reflexivity.
Qed.

Lemma searchProductsHandler_accepted (req : Request) (st : State) :
  validSearchQuery req = true ->
  exists term page,
    query_q req = Some (JStr term) /\ Js.trim term <> "" /\
    parsePage (query_page req) = Some page /\ 1 <= page /\
    searchProductsHandler env upstream req st =
    let '(r, st', events) :=
      Api.searchProducts env upstream (Js.trim term) (searchOptions page (query_sort req)) st in
    (searchResponse env page r, st', events).
Proof.
  unfold validSearchQuery. intros Hvalid.
  destruct (query_q req) as [[| b | n | term | items | fields] |] eqn:Hq; try discriminate.
  apply andb_prop in Hvalid as [Hterm Hpage].
  apply negb_true_iff, String.eqb_neq in Hterm. apply negb_true_iff in Hpage.
  unfold badPage in Hpage.
  destruct (parsePage (query_page req)) as [page |] eqn:Hparsed; [| discriminate].
  exists term, page. repeat split; try assumption.
  - apply Z.ltb_ge in Hpage. exact Hpage.
  - rewrite (searchProductsHandler_nonblank env upstream req st term Hq Hterm), Hparsed, Hpage.
    reflexivity.
Qed.

End ControllerProperties.

(** X10: a handler responds with status 400 exactly when its parameters
    fail validation, and then nothing reaches the API client: the response
    carries the code [VALIDATION_ERROR] and the offending field ([tcin],
    [gtin], [q] or [page]), no cache is read, no request is sent, and the
    state is as it was. *)
Theorem validation_stops_before_the_client (env : Env) (upstream : Upstream)
    (req : Controller.Request) (st : State) :
  let byTcin := Controller.getProductByTcin env upstream req st in
  let byUpc := Controller.getProductByUpc env upstream req st in
  let search := Controller.searchProductsHandler env upstream req st in
  (Controller.res_status (fst (fst byTcin)) = 400 <-> validTcinParam req = false) /\
  (validTcinParam req = false -> rejected "tcin" st byTcin) /\
  (Controller.res_status (fst (fst byUpc)) = 400 <-> validGtinParam req = false) /\
  (validGtinParam req = false -> rejected "gtin" st byUpc) /\
  (Controller.res_status (fst (fst search)) = 400 <-> validSearchQuery req = false) /\
  (validSearchQuery req = false -> rejected "q" st search \/ rejected "page" st search).
Proof.
  cbv zeta. split; [| split; [| split; [| split; [| split]]]].
  - split; [| intros Hinvalid; apply getProductByTcin_rejected, Hinvalid].
    unfold validTcinParam. destruct (Controller.params_tcin req) as [tcin |] eqn:Hparam;
      [| reflexivity].
    destruct (Api.isValidTcin tcin) eqn:Hvalid; [| reflexivity].
    rewrite (getProductByTcin_valid env upstream req st tcin Hparam Hvalid).
    destruct (Api.getFullProductByTcin env upstream tcin None st) as [[r st'] events].
    cbn [fst]. intros Hstatus.
    pose proof (productResponse_status env "TCIN" tcin r) as Hin.
    rewrite Hstatus in Hin. cbn in Hin. intuition discriminate.
  - apply getProductByTcin_rejected.
  - split; [| intros Hinvalid; apply getProductByUpc_rejected, Hinvalid].
    unfold validGtinParam. destruct (Controller.params_gtin req) as [gtin |] eqn:Hparam;
      [| reflexivity].
    destruct (Api.digitsBetween 8 14 gtin) eqn:Hvalid; [| reflexivity].
    rewrite (getProductByUpc_valid env upstream req st gtin Hparam Hvalid).
    destruct (Api.getProductByGtin env upstream gtin None st) as [[r st'] events].
    cbn [fst]. intros Hstatus.
    pose proof (productResponse_status env "UPC/GTIN" gtin r) as Hin.
    rewrite Hstatus in Hin. cbn in Hin. intuition discriminate.
  - apply getProductByUpc_rejected.
  - split.
    + destruct (validSearchQuery req) eqn:Hvalid; [| reflexivity].
      destruct (searchProductsHandler_accepted env upstream req st Hvalid)
        as (term & page & _ & _ & _ & _ & ->).
      destruct (Api.searchProducts env upstream (Js.trim term) _ st) as [[r st'] events].
      cbn [fst]. intros Hstatus.
      pose proof (searchResponse_status env page r) as Hin.
      rewrite Hstatus in Hin. cbn in Hin. intuition discriminate.
    + intros Hinvalid.
      destruct (searchProductsHandler_rejected env upstream req st Hinvalid)
        as [(Hstatus & _) | (Hstatus & _)]; exact Hstatus.
  - apply searchProductsHandler_rejected.
Qed.

(** X11: the two product lookups only ever respond with status 200, 400,
    404 or 500, and the search handler only with 200, 400 or 500: a search
    never responds 404. *)
Theorem handler_statuses (env : Env) (upstream : Upstream)
    (req : Controller.Request) (st : State) :
  In (Controller.res_status (fst (fst (Controller.getProductByTcin env upstream req st))))
     [200; 400; 404; 500] /\
  In (Controller.res_status (fst (fst (Controller.getProductByUpc env upstream req st))))
     [200; 400; 404; 500] /\
  In (Controller.res_status (fst (fst (Controller.searchProductsHandler env upstream req st))))
     [200; 400; 500].
Proof.
  split; [| split].
  - destruct (validTcinParam req) eqn:Hvalid.
    + unfold validTcinParam in Hvalid.
      destruct (Controller.params_tcin req) as [tcin |] eqn:Hparam; [| discriminate].
      rewrite (getProductByTcin_valid env upstream req st tcin Hparam Hvalid).
      destruct (Api.getFullProductByTcin env upstream tcin None st) as [[r st'] events].
      cbn [fst]. pose proof (productResponse_status env "TCIN" tcin r) as Hin.
      cbn in Hin |- *. intuition.
    + destruct (getProductByTcin_rejected env upstream req st Hvalid) as [-> _].
      cbn. auto.
  - destruct (validGtinParam req) eqn:Hvalid.
    + unfold validGtinParam in Hvalid.
      destruct (Controller.params_gtin req) as [gtin |] eqn:Hparam; [| discriminate].
      rewrite (getProductByUpc_valid env upstream req st gtin Hparam Hvalid).
      destruct (Api.getProductByGtin env upstream gtin None st) as [[r st'] events].
      cbn [fst]. pose proof (productResponse_status env "UPC/GTIN" gtin r) as Hin.
      cbn in Hin |- *. intuition.
    + destruct (getProductByUpc_rejected env upstream req st Hvalid) as [-> _].
      cbn. auto.
  - destruct (validSearchQuery req) eqn:Hvalid.
    + destruct (searchProductsHandler_accepted env upstream req st Hvalid)
        as (term & page & _ & _ & _ & _ & ->).
      destruct (Api.searchProducts env upstream (Js.trim term) _ st) as [[r st'] events].
      cbn [fst]. pose proof (searchResponse_status env page r) as Hin.
      cbn in Hin |- *. intuition.
    + destruct (searchProductsHandler_rejected env upstream req st Hvalid)
        as [[-> _] | [-> _]]; cbn; auto.
Qed.

(** X12: when the API client throws, a handler responds with status 500
    and the code [INTERNAL_ERROR], and passes the state and the effects of
    the client on; the message is the message of the thrown error in
    development mode only, and otherwise a fixed text that says nothing of
    the upstream failure. *)
Theorem thrown_error_is_redacted (env : Env) (upstream : Upstream)
    (req : Controller.Request) (st st' : State) (e : ApiError) (events : list Event) :
  let internal (fallback : string) :=
    ({| Controller.res_status := 500;
        Controller.res_body :=
          JObj [("error",
                 JObj [("code", JStr "INTERNAL_ERROR");
                       ("message",
                        JStr (if isDevelopment env then err_message e else fallback))])] |},
     st', events) in
  (forall tcin,
     Controller.params_tcin req = Some tcin -> Api.isValidTcin tcin = true ->
     Api.getFullProductByTcin env upstream tcin None st = (Thrown e, st', events) ->
     Controller.getProductByTcin env upstream req st =
     internal "Failed to fetch product information") /\
  (forall gtin,
     Controller.params_gtin req = Some gtin -> Api.digitsBetween 8 14 gtin = true ->
     Api.getProductByGtin env upstream gtin None st = (Thrown e, st', events) ->
     Controller.getProductByUpc env upstream req st =
     internal "Failed to fetch product information") /\
  (forall term page,
     Controller.query_q req = Some (JStr term) -> Js.trim term <> "" ->
     Controller.parsePage (Controller.query_page req) = Some page -> 1 <= page ->
     Api.searchProducts env upstream (Js.trim term)
       (searchOptions page (Controller.query_sort req)) st = (Thrown e, st', events) ->
     Controller.searchProductsHandler env upstream req st =
     internal "Failed to search products").
Proof.
  cbv zeta. split; [| split].
  - intros tcin Hparam Hvalid Hrun.
    rewrite (getProductByTcin_valid env upstream req st tcin Hparam Hvalid), Hrun.
    reflexivity.
  - intros gtin Hparam Hvalid Hrun.
    rewrite (getProductByUpc_valid env upstream req st gtin Hparam Hvalid), Hrun.
    reflexivity.
  - intros term page Hq Hterm Hpage Hpositive Hrun.
    rewrite (searchProductsHandler_nonblank env upstream req st term Hq Hterm), Hpage.
    destruct (page <? 1) eqn:Hlt; [apply Z.ltb_lt in Hlt; lia |].
    rewrite Hrun. reflexivity.
Qed.

Lemma thrown_error_is_redacted_witness :
  let req := {| Controller.params_tcin := Some "99999999"; Controller.params_gtin := None;
                Controller.query_q := None; Controller.query_page := None;
                Controller.query_sort := None |} in
  fst (fst (Controller.getProductByTcin Sample.env Sample.catalogue req Sample.fresh)) =
  {| Controller.res_status := 500;
     Controller.res_body :=
       JObj [("error", JObj [("code", JStr "INTERNAL_ERROR");
                             ("message", JStr "Failed to fetch product information")])] |}.
Proof.
  cbv zeta.
  pose proof (thrown_error_is_redacted Sample.env Sample.catalogue
                {| Controller.params_tcin := Some "99999999";
                   Controller.params_gtin := None; Controller.query_q := None;
                   Controller.query_page := None; Controller.query_sort := None |}
                Sample.fresh
                (snd (fst (Api.getFullProductByTcin Sample.env Sample.catalogue "99999999"
                             None Sample.fresh)))
                (handleApiError (Sample.httpError 404) (Some "TCIN 99999999"))
                (snd (Api.getFullProductByTcin Sample.env Sample.catalogue "99999999"
                        None Sample.fresh))) as [Hlookup _].
  rewrite (Hlookup "99999999" eq_refl eq_refl); [reflexivity |].
  vm_compute. reflexivity.
Defined.

(** X13: a product lookup that did not end in status 500 is answered again
    from the cache: for as long as the entry under [full_product_<tcin>] is
    live, the same request gets the same response (be it the product or the
    404 for a payload without product) with a cache read as its only
    effect, whatever the upstream would answer by then. *)
Theorem getProductByTcin_handler_cached (env : Env) (upstream upstream' : Upstream)
    (req : Controller.Request) (tcin : string) (st st1 : State)
    (response : Controller.Response) (events : list Event) (dt : Z) :
  Controller.params_tcin req = Some tcin ->
  Api.isValidTcin tcin = true ->
  Controller.getProductByTcin env upstream req st = (response, st1, events) ->
  Controller.res_status response <> 500 ->
  (forall e, cache_entries (productCache st1) !! ("full_product_" +:+ tcin) = Some e ->
             entryLive (clock st1 + dt) e = true) ->
  Controller.getProductByTcin env upstream' req (advance dt st1) =
  (response, advance dt st1, [CacheRead ProductCache ("full_product_" +:+ tcin)]).
Proof.
  intros Hparam Hvalid Hfirst Hstatus Hlive.
  rewrite (getProductByTcin_valid env upstream req st tcin Hparam Hvalid) in Hfirst.
  destruct (Api.getFullProductByTcin env upstream tcin None st) as [[r st'] events'] eqn:Hrun.
  injection Hfirst as <- <- <-.
  destruct r as [payload | e]; [| contradiction Hstatus; reflexivity].
  rewrite getFullProductByTcin_shape in Hrun.
  apply fetchThroughCache_leaves_entry in Hrun as (entry & Hentry & <-).
  rewrite (getProductByTcin_valid env upstream' req _ tcin Hparam Hvalid).
  rewrite getFullProductByTcin_shape.
  rewrite (fetchThroughCache_hit upstream' ProductCache _ _ _ None (advance dt st') entry
             eq_refl Hentry (Hlive entry Hentry)).
  reflexivity.
Qed.

Lemma getProductByTcin_handler_cached_witness :
  let req := {| Controller.params_tcin := Some "78025470"; Controller.params_gtin := None;
                Controller.query_q := None; Controller.query_page := None;
                Controller.query_sort := None |} in
  let first := Controller.getProductByTcin Sample.env Sample.catalogue req Sample.fresh in
  Controller.getProductByTcin Sample.env Sample.notFoundUpstream req
    (advance 3000000 (snd (fst first))) =
  (fst (fst first), advance 3000000 (snd (fst first)),
   [CacheRead ProductCache "full_product_78025470"]).
Proof.
  cbv zeta.
  apply (getProductByTcin_handler_cached Sample.env Sample.catalogue Sample.notFoundUpstream
           {| Controller.params_tcin := Some "78025470"; Controller.params_gtin := None;
              Controller.query_q := None; Controller.query_page := None;
              Controller.query_sort := None |}
           "78025470" Sample.fresh _ _
           (snd (Controller.getProductByTcin Sample.env Sample.catalogue
                   {| Controller.params_tcin := Some "78025470";
                      Controller.params_gtin := None; Controller.query_q := None;
                      Controller.query_page := None; Controller.query_sort := None |}
                   Sample.fresh))
           3000000).
  - reflexivity.
  - reflexivity.
  - vm_compute. reflexivity.
  - vm_compute. discriminate.
  - intros e He. vm_compute in He. injection He as <-. reflexivity.
Defined.

(** ** URL helpers *)

Section Urls.

Import Api.

Lemma takeDigits_some (n : nat) (s t : string) :
  takeDigits n s = Some t ->
  exists rest, s = t +:+ rest /\ String.length t = n /\ Js.allChars Js.isDigit t = true.
Proof.
  revert s t. induction n as [| n IH]; intros s t; cbn.
  - intros [= <-]. exists s. auto.
  - destruct s as [| c s]; [discriminate |].
    destruct (Js.isDigit c) eqn:Hc; [| discriminate].
    destruct (takeDigits n s) as [t' |] eqn:Htake; [| discriminate].
    cbn. intros [= <-]. destruct (IH s t' Htake) as (rest & -> & Hlen & Hall).
    exists rest. rewrite append_cons. cbn [String.length Js.allChars].
    rewrite Hc, Hall, Hlen. auto.
Qed.

Lemma takeDigits_app (t rest : string) :
  Js.allChars Js.isDigit t = true ->
  takeDigits (String.length t) (t +:+ rest) = Some t.
Proof.
  induction t as [| c t IH]; [reflexivity |].
  cbn [Js.allChars]. intros Hall. apply andb_prop in Hall as [Hc Ht].
  rewrite append_cons. cbn [String.length takeDigits]. rewrite Hc, (IH Ht). reflexivity.
Qed.

Lemma matchTcinHere_some (s t : string) :
  matchTcinHere s = Some t ->
  exists rest, s = "/A-" +:+ rest /\ takeDigits 8 rest = Some t.
Proof.
  unfold matchTcinHere.
  destruct s as [| c1 [| c2 [| c3 rest]]];
    try discriminate;
    try (destruct c1 as [[] [] [] [] [] [] [] []]; discriminate);
    try (destruct c1 as [[] [] [] [] [] [] [] []]; try discriminate;
         destruct c2 as [[] [] [] [] [] [] [] []]; discriminate).
  destruct c1 as [[] [] [] [] [] [] [] []]; try discriminate.
  destruct c2 as [[] [] [] [] [] [] [] []]; try discriminate.
  destruct c3 as [[] [] [] [] [] [] [] []]; try discriminate.
  intros Htake. exists rest. auto.
Qed.

Lemma extractTcinFromUrl_some (url t : string) :
  extractTcinFromUrl url = Some t ->
  exists before rest, url = before +:+ "/A-" +:+ rest /\ takeDigits 8 rest = Some t.
Proof.
  induction url as [| c url IH].
  - cbn. discriminate.
  - cbn [extractTcinFromUrl].
    destruct (matchTcinHere (String c url)) as [t' |] eqn:Hhere.
    + intros [= <-]. apply matchTcinHere_some in Hhere as (rest & -> & Htake).
      exists "", rest. auto.
    + intros Hlater. destruct (IH Hlater) as (before & rest & -> & Htake).
      exists (String c before), rest. auto.
Qed.

Lemma extractTcinFromUrl_finds (before t after : string) :
  Js.allChars Js.isDigit t = true -> String.length t = 8%nat ->
  is_Some (extractTcinFromUrl (before +:+ "/A-" +:+ t +:+ after)).
Proof.
  intros Hall Hlen. induction before as [| c before IH].
  - rewrite append_nil, !append_cons, append_nil. cbn [extractTcinFromUrl matchTcinHere].
    rewrite <- Hlen, (takeDigits_app t after Hall). eauto.
  - rewrite append_cons. cbn [extractTcinFromUrl].
    destruct (matchTcinHere _); [eauto | exact IH].
Qed.

End Urls.

(** X14: [extractTcinFromUrl] finds something exactly when the URL has a
    [/A-] followed by eight digits, and what it returns is always eight
    digits that stand in the URL right after a [/A-], hence a TCIN that
    [isValidTcin] accepts. *)
Theorem extractTcinFromUrl_sound (url : string) :
  (is_Some (Api.extractTcinFromUrl url) <->
   exists before t after,
     url = before +:+ "/A-" +:+ t +:+ after /\
     Js.allChars Js.isDigit t = true /\ String.length t = 8%nat) /\
  (forall t,
     Api.extractTcinFromUrl url = Some t ->
     (exists before after, url = before +:+ "/A-" +:+ t +:+ after) /\
     String.length t = 8%nat /\ Js.allChars Js.isDigit t = true /\
     Api.isValidTcin t = true).
Proof.
  assert (forall t, Api.extractTcinFromUrl url = Some t ->
            (exists before after, url = before +:+ "/A-" +:+ t +:+ after) /\
            String.length t = 8%nat /\ Js.allChars Js.isDigit t = true) as Hsound.
  { intros t Hfound.
    apply extractTcinFromUrl_some in Hfound as (before & rest & -> & Htake).
    apply takeDigits_some in Htake as (after & -> & Hlen & Hall). eauto. }
  split.
  - split.
    + intros [t Hfound]. destruct (Hsound t Hfound) as ((before & after & ->) & Hlen & Hall).
      eauto 6.
    + intros (before & t & after & -> & Hall & Hlen).
      apply extractTcinFromUrl_finds; assumption.
  - intros t Hfound. destruct (Hsound t Hfound) as (Hplace & Hlen & Hall).
    repeat split; try assumption.
    unfold Api.isValidTcin, Api.digitsBetween. rewrite Hall, Hlen. reflexivity.
Qed.

Lemma length_substring_prefix (n : nat) (s : string) :
  (n <= String.length s)%nat -> String.length (String.substring 0 n s) = n.
Proof.
  revert s. induction n as [| n IH]; intros [| c s] Hlen; cbn in *; try reflexivity; try lia.
  rewrite IH by lia. reflexivity.
Qed.

Lemma substring_whole (s : string) : String.substring 0 (String.length s) s = s.
Proof. induction s as [| c s IH]; cbn; [reflexivity | rewrite IH; reflexivity]. Qed.

(** X15: for a TCIN that [isValidTcin] accepts, reading back the URL made
    by [generateProductUrl] gives the first eight digits of the TCIN; it
    gives the TCIN itself exactly when the TCIN has eight digits. *)
Theorem extract_generate_iff (tcin : string) :
  Api.isValidTcin tcin = true ->
  Api.extractTcinFromUrl (Api.generateProductUrl tcin) = Some (String.substring 0 8 tcin) /\
  (Api.extractTcinFromUrl (Api.generateProductUrl tcin) = Some tcin <->
   String.length tcin = 8%nat).
Proof.
  intros Hvalid. pose proof (extract_generate_valid tcin Hvalid) as Hround.
  split; [exact Hround |]. rewrite Hround.
  unfold Api.isValidTcin, Api.digitsBetween in Hvalid.
  apply andb_prop in Hvalid as [Hvalid _]. apply andb_prop in Hvalid as [_ Hlen].
  apply Nat.leb_le in Hlen. split.
  - intros [= Hsame]. rewrite <- Hsame at 1. apply length_substring_prefix, Hlen.
  - intros Height. rewrite <- Height. rewrite substring_whole. reflexivity.
Qed.

Lemma extract_generate_iff_witness :
  Api.extractTcinFromUrl (Api.generateProductUrl "1234567890") = Some "12345678" /\
  (Api.extractTcinFromUrl (Api.generateProductUrl "1234567890") = Some "1234567890" <->
   String.length "1234567890" = 8%nat).
Proof. apply (extract_generate_iff "1234567890"). reflexivity. Defined.

(** ** Bulk operations, whatever fails *)

(** The result of a bulk call over [tcins] whose single operations, run one
    by one, are [single]: the call returned a mapping; every key of the
    mapping is a key of a successful identifier; every successful
    identifier is a key; and the mapping is empty exactly when no
    identifier succeeded. *)
Definition collects (numberKey : string -> option string)
    (single : string -> Result ApiError ApiResponse * State * list Event)
    (tcins : list string)
    (run : Result ApiError (gmap string ApiResponse) * State * list Event) : Prop :=
  exists m : gmap string ApiResponse,
    fst (fst run) = Returned m /\
    (forall key, is_Some (m !! key) ->
                 exists tcin, In tcin tcins /\ is_Some (returned (single tcin)) /\
                              storedUnder numberKey tcin key) /\
    (forall tcin, In tcin tcins -> is_Some (returned (single tcin)) -> is_Some (m !! tcin)) /\
    (m = ∅ <-> forall tcin, In tcin tcins -> returned (single tcin) = None).

(** The result of a bulk call over identifiers that are their own number
    key: the mapping has exactly the successful identifiers as keys, each
    with the payload of its single operation. *)
Definition collectsExactly
    (single : string -> Result ApiError ApiResponse * State * list Event)
    (tcins : list string)
    (run : Result ApiError (gmap string ApiResponse) * State * list Event) : Prop :=
  exists m : gmap string ApiResponse,
    fst (fst run) = Returned m /\
    (forall tcin, In tcin tcins -> m !! tcin = returned (single tcin)) /\
    (forall key, ~ In key tcins -> m !! key = None).

Section BulkInGeneral.

Variable numberKey : string -> option string.
Variable op : string -> Eff ApiError ApiResponse.
Variable st : State.

Local Abbreviation recordItem := (Api.recordItem numberKey).
Local Abbreviation item := (fun tcin => Api.settled (Api.settle tcin (op tcin) st)).
Local Abbreviation bulk :=
  (fun tcins =>
     (results ← Api.promiseAll (E := ApiError) (map (fun tcin => Api.settle tcin (op tcin)) tcins);
      mret (fold_left recordItem results ∅)) st).

Lemma bulk_returns (tcins : list string) :
  fst (fst (bulk tcins)) = Returned (fold_left recordItem (map item tcins) ∅).
Proof.
  unfold Api.promiseAll, mbind, Eff_bind, bind, mret, Eff_ret, ret. cbn [fst snd].
  rewrite !map_map. reflexivity.
Qed.

Lemma bulk_collects (tcins : list string) :
  collects numberKey (fun tcin => op tcin st) tcins (bulk tcins).
Proof.
  exists (fold_left recordItem (map item tcins) ∅).
  split; [apply bulk_returns |].
  assert (forall key, is_Some (fold_left recordItem (map item tcins) ∅ !! key) ->
            exists tcin, In tcin tcins /\ is_Some (returned (op tcin st)) /\
                         storedUnder numberKey tcin key) as Hsound.
  { intros key [value Hm].
    apply recordItems_lookup in Hm as [Hm | (it & Hin & Hvalue & Hkey)];
      [rewrite lookup_empty in Hm; discriminate |].
    apply in_map_iff in Hin as (tcin & <- & Hin).
    destruct (settled_settle tcin (op tcin) st) as [Htcin Hitem].
    rewrite Htcin in Hkey. rewrite Hitem in Hvalue. exists tcin.
    repeat split; [assumption | rewrite Hvalue; eauto | assumption]. }
  assert (forall tcin, In tcin tcins -> is_Some (returned (op tcin st)) ->
            is_Some (fold_left recordItem (map item tcins) ∅ !! tcin)) as Hcomplete.
  { intros tcin Hin Hok. apply recordItems_present. right. exists (item tcin).
    destruct (settled_settle tcin (op tcin) st) as [Htcin Hitem].
    rewrite Htcin, Hitem. repeat split; [| assumption | left; reflexivity].
    apply in_map_iff. eauto. }
  repeat split; try assumption.
  - intros Hempty tcin Hin. destruct (returned (op tcin st)) eqn:Hok; [| reflexivity].
    destruct (Hcomplete tcin Hin) as [value Hm]; [rewrite Hok; eauto |].
    rewrite Hempty, lookup_empty in Hm. discriminate.
  - intros Hnone. apply map_empty. intros key.
    destruct (fold_left recordItem (map item tcins) ∅ !! key) eqn:Hm; [| reflexivity].
    destruct (Hsound key) as (tcin & Hin & [value Hok] & _); [eauto |].
    rewrite (Hnone tcin Hin) in Hok. discriminate.
Qed.

Lemma recordItem_canonical (m : gmap string ApiResponse) (tcin key : string) :
  numberKey tcin = None \/ numberKey tcin = Some tcin ->
  recordItem m (item tcin) !! key =
  if string_dec key tcin
  then match returned (op tcin st) with Some value => Some value | None => m !! key end
  else m !! key.
Proof.
  intros Hcanonical. unfold Api.recordItem.
  destruct (settled_settle tcin (op tcin) st) as [-> ->].
  destruct (returned (op tcin st)) as [value |]; [| destruct (string_dec key tcin); reflexivity].
  rewrite insert_insert_eq.
  destruct Hcanonical as [-> | ->]; [| rewrite insert_insert_eq];
    (destruct (string_dec key tcin) as [-> | Hne];
     [apply lookup_insert_eq | apply lookup_insert_ne; congruence]).
Qed.

Lemma recordItems_canonical (tcins : list string) (m : gmap string ApiResponse)
    (key : string) :
  (forall tcin, In tcin tcins -> numberKey tcin = None \/ numberKey tcin = Some tcin) ->
  fold_left recordItem (map item tcins) m !! key =
  match (if in_dec string_dec key tcins then returned (op key st) else None) with
  | Some value => Some value
  | None => m !! key
  end.
Proof.
  revert m. induction tcins as [| tcin tcins IH]; intros m Hcanonical; [reflexivity |].
  cbn [map fold_left].
  rewrite IH by (intros t Ht; apply Hcanonical; right; exact Ht).
  rewrite recordItem_canonical by (apply Hcanonical; left; reflexivity).
  destruct (in_dec string_dec key tcins) as [Hin | Hout];
    destruct (in_dec string_dec key (tcin :: tcins)) as [Hin' | Hout'];
    try (contradiction Hout'; right; exact Hin).
  - destruct (returned (op key st)) eqn:Hkey; [reflexivity |].
    destruct (string_dec key tcin) as [<- | Hne]; [rewrite Hkey |]; reflexivity.
  - destruct (string_dec key tcin) as [-> | Hne].
    + destruct (returned (op tcin st)); reflexivity.
    + destruct Hin' as [-> | Hin']; [contradiction Hne; reflexivity | contradiction].
  - destruct (string_dec key tcin) as [-> | Hne]; [| reflexivity].
    contradiction Hout'. left. reflexivity.
Qed.

Lemma bulk_collectsExactly (tcins : list string) :
  (forall tcin, In tcin tcins -> numberKey tcin = None \/ numberKey tcin = Some tcin) ->
  collectsExactly (fun tcin => op tcin st) tcins (bulk tcins).
Proof.
  intros Hcanonical. exists (fold_left recordItem (map item tcins) ∅).
  split; [apply bulk_returns |]. split.
  - intros tcin Hin. rewrite recordItems_canonical by exact Hcanonical.
    destruct (in_dec string_dec tcin tcins); [| contradiction].
    destruct (returned (op tcin st)); [reflexivity | apply lookup_empty].
  - intros key Hout. rewrite recordItems_canonical by exact Hcanonical.
    destruct (in_dec string_dec key tcins); [contradiction | apply lookup_empty].
Qed.

End BulkInGeneral.

(** X16: whatever fails, a bulk call ([getBulkProducts] or
    [checkBulkStoreStock]) does not throw; every successful identifier is a
    key of the returned mapping, every key is an identifier that succeeded
    or the number string of one, and the mapping is empty exactly when no
    identifier succeeded, as on an empty list. *)
Theorem bulk_collects_successes `{keys : CacheKeys} (env : Env) (upstream : Upstream)
    (numberKey : string -> option string) (tcins : list string) (zipCode : string)
    (storeId : option string) (options : option ApiRequestOptions) (st : State) :
  collects numberKey (fun tcin => Api.getProductByTcin env upstream tcin options st) tcins
    (Api.getBulkProducts env upstream numberKey tcins options st) /\
  collects numberKey
    (fun tcin => Api.checkStoreStock env upstream tcin zipCode storeId options st) tcins
    (Api.checkBulkStoreStock env upstream numberKey tcins zipCode storeId options st).
Proof.
  split.
  - apply (bulk_collects numberKey (fun tcin => Api.getProductByTcin env upstream tcin options)).
  - apply (bulk_collects numberKey
             (fun tcin => Api.checkStoreStock env upstream tcin zipCode storeId options)).
Qed.

(** X17: when every identifier of the list is its own number string, as
    the identifiers without leading zeros are, or no number at all, the
    mapping a bulk call returns has exactly the successful identifiers of
    the list as keys, and each is mapped to the payload its single
    operation returns. *)
Theorem bulk_exact_on_canonical_identifiers `{keys : CacheKeys} (env : Env)
    (upstream : Upstream) (numberKey : string -> option string) (tcins : list string)
    (zipCode : string) (storeId : option string) (options : option ApiRequestOptions)
    (st : State) :
  (forall tcin, In tcin tcins -> numberKey tcin = None \/ numberKey tcin = Some tcin) ->
  collectsExactly (fun tcin => Api.getProductByTcin env upstream tcin options st) tcins
    (Api.getBulkProducts env upstream numberKey tcins options st) /\
  collectsExactly
    (fun tcin => Api.checkStoreStock env upstream tcin zipCode storeId options st) tcins
    (Api.checkBulkStoreStock env upstream numberKey tcins zipCode storeId options st).
Proof.
  intros Hcanonical. split.
  - apply (bulk_collectsExactly numberKey
             (fun tcin => Api.getProductByTcin env upstream tcin options) st tcins Hcanonical).
  - apply (bulk_collectsExactly numberKey
             (fun tcin => Api.checkStoreStock env upstream tcin zipCode storeId options)
             st tcins Hcanonical).
Qed.

Lemma bulk_exact_on_canonical_identifiers_witness :
  collectsExactly
    (fun tcin => Api.getProductByTcin (keys := Sample.keys) Sample.env Sample.catalogue tcin
                   None Sample.fresh)
    ["78025470"; "99999999"; "12345678"]
    (Api.getBulkProducts (keys := Sample.keys) Sample.env Sample.catalogue
       Sample.decimalNumberKey ["78025470"; "99999999"; "12345678"] None Sample.fresh) /\
  collectsExactly
    (fun tcin => Api.checkStoreStock (keys := Sample.keys) Sample.env Sample.catalogue tcin
                   "04457" None None Sample.fresh)
    ["78025470"; "99999999"; "12345678"]
    (Api.checkBulkStoreStock (keys := Sample.keys) Sample.env Sample.catalogue
       Sample.decimalNumberKey ["78025470"; "99999999"; "12345678"] "04457" None None
       Sample.fresh).
Proof.
  apply (bulk_exact_on_canonical_identifiers (keys := Sample.keys) Sample.env
           Sample.catalogue Sample.decimalNumberKey ["78025470"; "99999999"; "12345678"]
           "04457" None None Sample.fresh).
  intros tcin [<- | [<- | [<- | []]]]; right; vm_compute; reflexivity.
Defined.

(** ** What [checkStoreStock] logs before its request *)

Module ApiLog.

(** [{ ...params, name: value }]: the member keeps its place when the
    object has it, and comes last otherwise. *)
Definition withField (name value : string) (params : Params) : Params :=
  if existsb (fun p => String.eqb (fst p) name) params
  then map (fun p => if String.eqb (fst p) name then (name, value) else p) params
  else params ++ [(name, value)].

Section Log.

(** The serialisation of one name or value by [URLSearchParams]; the
    percent-encoding is kept abstract. *)
Variable encode : string -> string.

(** [new URLSearchParams(params).toString()] *)
Definition searchParamsString (params : Params) : string :=
  String.concat "&" (map (fun p => encode (fst p) +:+ "=" +:+ encode (snd p)) params).

(** The two [console.log] lines of [checkStoreStock] ahead of the request,
    printed in development mode only. *)
Definition stockRequestLog (env : Env) (tcin zipCode : string) : list string :=
  if isDevelopment env then
    let params := [("api_key", API_KEY env); ("type", "store_stock"); ("tcin", tcin);
                   ("store_stock_zipcode", zipCode)] in
    let paramsForLogging := withField "api_key" "[REDACTED]" params in
    let url := BASE_URL env +:+ "?" +:+ searchParamsString paramsForLogging in
    ["[Target API] Checking stock for TCIN " +:+ tcin +:+ " in " +:+ zipCode;
     "[Target API] URL: " +:+ url]
  else [].

End Log.

End ApiLog.

Lemma append_assoc (a b c : string) : (a +:+ b) +:+ c = a +:+ b +:+ c.
Proof.
  induction a as [| x a IH]; [reflexivity |].
  rewrite !append_cons, IH. reflexivity.
Qed.

(** X18: the lines [checkStoreStock] logs ahead of its request do not depend
    on the API key: whatever [TARGET_API_KEY] is, the logged URL carries
    [[REDACTED]] in the place of the key, next to the three other
    parameters; outside development mode nothing is logged. *)
Theorem stock_log_hides_the_api_key (encode : string -> string) (env : Env)
    (anyKey : option string) (tcin zipCode : string) :
  let env' := {| TARGET_API_KEY := anyKey;
                 TARGET_API_BASE_URL := TARGET_API_BASE_URL env;
                 NODE_ENV := NODE_ENV env |} in
  ApiLog.stockRequestLog encode env' tcin zipCode =
  ApiLog.stockRequestLog encode env tcin zipCode /\
  ApiLog.stockRequestLog encode env tcin zipCode =
  if isDevelopment env then
    ["[Target API] Checking stock for TCIN " +:+ tcin +:+ " in " +:+ zipCode;
     "[Target API] URL: " +:+ BASE_URL env +:+ "?" +:+
     encode "api_key" +:+ "=" +:+ encode "[REDACTED]" +:+ "&" +:+
     encode "type" +:+ "=" +:+ encode "store_stock" +:+ "&" +:+
     encode "tcin" +:+ "=" +:+ encode tcin +:+ "&" +:+
     encode "store_stock_zipcode" +:+ "=" +:+ encode zipCode]
  else [].
Proof.
  cbv zeta. unfold ApiLog.stockRequestLog, isDevelopment, BASE_URL. cbn [NODE_ENV TARGET_API_BASE_URL].
  split; [reflexivity |].
  destruct (NODE_ENV env) as [mode |]; [| reflexivity].
  destruct (String.eqb mode "development"); [| reflexivity].
  unfold ApiLog.searchParamsString, ApiLog.withField. cbn [existsb map fst snd String.eqb Ascii.eqb Bool.eqb orb String.concat].
  rewrite !append_assoc. reflexivity.
Qed.

(** ** Page numbers *)

Section PageNumbers.

Import Js.











End PageNumbers.


